(** * TencentCos: the bucket handle of [cos_bucket.py]

    A shallow embedding of class [TencentCosBucket]: region resolution at
    construction time, the path/object translation layer, listing, upload,
    deletion, checksum lookup and URL construction.

    Python [str] values are Rocq [string]s read as UTF-8 byte sequences, file
    contents are [list byte], the remote bucket is an ordered key/object
    table together with the log of the primitive calls it received, and the
    methods that talk to the provider run in a state-and-exception monad
    over it. *)

From Stdlib Require Import Strings.String Strings.Ascii Strings.Byte.
From Stdlib Require Import List Bool Arith Lia Permutation.
Import ListNotations.
Open Scope list_scope.
Open Scope string_scope.

Set Implicit Arguments.

(** ** Python string built-ins used by the class *)

Module PyStr.

(** [s.startswith(p)] *)
Definition startswith (s p : string) : bool := String.prefix p s.

(** [s[n:]] for a non-negative [n] *)
Fixpoint drop (n : nat) (s : string) : string :=
  match n, s with
  | O, _ => s
  | S _, EmptyString => EmptyString
  | S k, String _ s' => drop k s'
  end.

(** [s.endswith(p)] *)
Definition endswith (s p : string) : bool :=
  Nat.leb (String.length p) (String.length s)
  && String.eqb (drop (String.length s - String.length p) s) p.

(** [s[1:]] *)
Definition tail (s : string) : string := drop 1 s.

(** [s[:-1]] *)
Fixpoint init (s : string) : string :=
  match s with
  | EmptyString => EmptyString
  | String c s' =>
      match s' with
      | EmptyString => EmptyString
      | String _ _ => String c (init s')
      end
  end.

(** [c in s] for a one-character [c] *)
Fixpoint contains_char (c : ascii) (s : string) : bool :=
  match s with
  | EmptyString => false
  | String a s' => Ascii.eqb a c || contains_char c s'
  end.

(** [s.split(sep)] for a one-character separator: never the empty list. *)
Fixpoint split (sep : ascii) (s : string) : list string :=
  match s with
  | EmptyString => [EmptyString]
  | String c s' =>
      if Ascii.eqb c sep then EmptyString :: split sep s'
      else match split sep s' with
           | [] => [String c EmptyString]
           | h :: t => String c h :: t
           end
  end.

(** [sep.join(parts)] *)
Definition join (sep : string) (parts : list string) : string :=
  String.concat sep parts.

(** [x in xs] for a list of strings *)
Definition mem (x : string) (xs : list string) : bool :=
  existsb (String.eqb x) xs.

(** [s.replace(old, new)]: every non-overlapping occurrence of [old], found
    from the left, becomes [new].  [skip] counts the characters of the
    occurrence just replaced that are still to be passed over.  With an
    empty [old], Python puts [new] before every character and at the end. *)
Fixpoint replace_from (old new : string) (skip : nat) (s : string) : string :=
  match s with
  | EmptyString => EmptyString
  | String c s' =>
      match skip with
      | S k => replace_from old new k s'
      | O =>
          if String.prefix old s
          then new ++ replace_from old new (String.length old - 1) s'
          else String c (replace_from old new 0 s')
      end
  end.

Fixpoint intersperse (new : string) (s : string) : string :=
  match s with
  | EmptyString => new
  | String c s' => new ++ String c (intersperse new s')
  end.

Definition replace (old new s : string) : string :=
  match old with
  | EmptyString => intersperse new s
  | String _ _ => replace_from old new 0 s
  end.

End PyStr.

(** ** The path model *)

Definition slash : ascii := "/"%char.

(** [_parse_object_path_name]: directory part and leaf name of a full path. *)
Definition _parse_object_path_name (object_full_path : string) : string * string :=
  if negb (PyStr.contains_char slash object_full_path)
  then ("", object_full_path)
  else
    let paths := PyStr.split slash object_full_path in
    (PyStr.join "/" (removelast paths), last paths "").


(** ** Standard-library helpers of the class *)

(** [urllib.parse.quote(s)] with its default [safe='/']: the UTF-8 bytes of
    [s] are kept when they are letters, digits, one of [_.-~] or [/], and
    written [%XX] (two upper-case hexadecimal digits) otherwise. *)
Module Urllib.

Definition always_safe (c : ascii) : bool :=
  let n := nat_of_ascii c in
  (Nat.leb 65 n && Nat.leb n 90) || (Nat.leb 97 n && Nat.leb n 122)
  || (Nat.leb 48 n && Nat.leb n 57)
  || Ascii.eqb c "_" || Ascii.eqb c "." || Ascii.eqb c "-" || Ascii.eqb c "~".

Definition hex_digit (n : nat) : ascii :=
  nth n ["0"; "1"; "2"; "3"; "4"; "5"; "6"; "7"; "8"; "9";
         "A"; "B"; "C"; "D"; "E"; "F"]%char "0"%char.

Definition percent (c : ascii) : string :=
  let n := nat_of_ascii c in
  String "%" (String (hex_digit (n / 16)) (String (hex_digit (n mod 16)) "")).

Fixpoint quote_with (safe : string) (s : string) : string :=
  match s with
  | EmptyString => EmptyString
  | String c s' =>
      (if always_safe c || PyStr.contains_char c safe
       then String c "" else percent c) ++ quote_with safe s'
  end.

Definition quote (s : string) : string := quote_with "/" s.

End Urllib.

Module OsPath.

(** [os.path.join(a, b)] on POSIX. *)
Definition join (a b : string) : string :=
  if PyStr.startswith b "/" then b
  else if String.eqb a "" || PyStr.endswith a "/" then a ++ b
  else a ++ "/" ++ b.

(** [Path(p).name]: the last component of [p] once empty and ["."]
    components are dropped; empty when nothing is left. *)
Definition name (p : string) : string :=
  last (filter (fun part => negb (String.eqb part "") && negb (String.eqb part "."))
               (PyStr.split slash p)) "".

End OsPath.

(** ** Exceptions and results *)

Inductive PyExc : Type :=
| CosServiceError (error_code : string)
| CosBucketDirNotFoundError (msg : string)
| FileNotFoundError (msg : string)
| IsADirectoryError (msg : string)
| OtherError (msg : string).

(** [e.get_error_code()] of a [CosServiceError] *)
Definition get_error_code (e : PyExc) : string :=
  match e with CosServiceError c => c | _ => "" end.

(** [str(e)] *)
Definition exc_str (e : PyExc) : string :=
  match e with
  | CosServiceError c => c
  | CosBucketDirNotFoundError m | FileNotFoundError m
  | IsADirectoryError m | OtherError m => m
  end.

Inductive Result (A : Type) : Type :=
| Ok (a : A)
| Raise (e : PyExc).
Arguments Ok {A} a.
Arguments Raise {A} e.

(** ** The local file system, read only *)

Inductive FsNode : Type :=
| RegularFile (content : list byte)
| Directory.

Definition FileSystem : Type := string -> option FsNode.

Module Os.

Definition exists_ (fs : FileSystem) (p : string) : bool :=
  match fs p with Some _ => true | None => false end.

Definition isfile (fs : FileSystem) (p : string) : bool :=
  match fs p with Some (RegularFile _) => true | _ => false end.

(** [open(p, 'rb')]: the bytes still to be read. *)
Definition open_rb (fs : FileSystem) (p : string) : Result (list byte) :=
  match fs p with
  | Some (RegularFile content) => Ok content
  | Some Directory => Raise (IsADirectoryError ("[Errno 21] Is a directory: '" ++ p ++ "'"))
  | None => Raise (FileNotFoundError ("[Errno 2] No such file or directory: '" ++ p ++ "'"))
  end.

End Os.

(** ** Hashing a local file *)

Section LocalMd5.

(** The MD5 digest in hexadecimal, [hashlib.md5(data).hexdigest()].  A
    [hashlib] object remembers the bytes fed to it: [update] appends and
    [hexdigest] digests everything fed so far. *)
Variable md5_hex : list byte -> string.

Definition md5_update (md5hash buffer : list byte) : list byte := md5hash ++ buffer.
Definition md5_hexdigest (md5hash : list byte) : string := md5_hex md5hash.

(** [for buffer in iter(partial(f.read, 128), b''): md5hash.update(buffer)]:
    [unread] is what the file object has not returned yet; the loop stops
    at the first empty read.  A file of [n] bytes is exhausted after at most
    [n] non-empty reads, so [S n] rounds always reach the empty read. *)
Fixpoint md5_read_loop (rounds : nat) (unread md5hash : list byte) : list byte :=
  match rounds with
  | O => md5hash
  | S k =>
      match firstn 128 unread with
      | [] => md5hash
      | buffer => md5_read_loop k (skipn 128 unread) (md5_update md5hash buffer)
      end
  end.

(** [get_local_file_md5] *)
Definition get_local_file_md5 (fs : FileSystem) (local_file_path : string)
  : Result string :=
  if negb (Os.isfile fs local_file_path)
  then Raise (FileNotFoundError ("cannot found file: " ++ local_file_path))
  else
    match Os.open_rb fs local_file_path with
    | Raise e => Raise e
    | Ok f => Ok (md5_hexdigest (md5_read_loop (S (length f)) f []))
    end.

End LocalMd5.

(** ** The client identity *)

Module Cos.

(** Modelled from the spec: class [TencentCos] of [cos.py], which is not
    among the sources.  The bucket handle reads its credentials pair and its
    region code, builds a new identity from these three values when it
    changes region, and asks it for the account id ([get_appid], taken as a
    function of the identity below). *)
Record TencentCos : Type := {
  secret_id : string;
  secret_key : string;
  region : string
}.

End Cos.

(** ** The bucket handle *)

Definition REGIONS : list string :=
  ["nanjing"; "chengdu"; "beijing"; "guangzhou"; "shanghai"; "chongqing"; "hongkong"].

Record TencentCosBucket : Type := {
  cos : Cos.TencentCos;
  name : string;
  full_name : string;
  base_url : string;
  region : option string
}.

Definition set_cos (self : TencentCosBucket) (c : Cos.TencentCos) : TencentCosBucket :=
  {| cos := c; name := name self; full_name := full_name self;
     base_url := base_url self; region := region self |}.

Definition set_full_name (self : TencentCosBucket) (n : string) : TencentCosBucket :=
  {| cos := cos self; name := name self; full_name := n;
     base_url := base_url self; region := region self |}.

Definition set_base_url (self : TencentCosBucket) (u : string) : TencentCosBucket :=
  {| cos := cos self; name := name self; full_name := full_name self;
     base_url := u; region := region self |}.

Definition set_region (self : TencentCosBucket) (r : option string) : TencentCosBucket :=
  {| cos := cos self; name := name self; full_name := full_name self;
     base_url := base_url self; region := r |}.

(** [_get_bucket_url] *)
Definition _get_bucket_url (self : TencentCosBucket) : string :=
  "https://" ++ full_name self ++ ".cos." ++ Cos.region (cos self) ++ ".myqcloud.com/".

(** One existence probe: the identity the client was pinned to and the
    bucket name it asked for. *)
Record Probe : Type := {
  probe_cos : Cos.TencentCos;
  probe_bucket : string
}.

Section RegionResolution.

(** [cos.get_appid()] *)
Variable get_appid : Cos.TencentCos -> string.

(** The provider's answer to [cos.client.list_objects(Bucket=full_name)]
    at the [n]-th probe of a resolution (counted from 0): it may depend on
    the identity, on the bucket name and, for transient faults, on [n]. *)
Variable probe_list_objects : nat -> Cos.TencentCos -> string -> Result unit.

(** The [for region in REGIONS] loop of [_get_correct_cos_region], from the
    candidates still to visit.  It yields the returned value ([None] when
    the loop runs out), the handle as the loop leaves it, and the probes
    made so far, oldest first. *)
Fixpoint _get_correct_cos_region_from (regions : list string)
    (self : TencentCosBucket) (probes : list Probe)
  : option string * TencentCosBucket * list Probe :=
  match regions with
  | [] => (None, self, probes)
  | region :: rest =>
      let probes' := (probes ++ [{| probe_cos := cos self; probe_bucket := full_name self |}])%list in
      match probe_list_objects (length probes) (cos self) (full_name self) with
      | Ok _ => (Some region, self, probes')
      | Raise (CosServiceError code) =>
          if String.eqb code "NoSuchBucket" then
            let region := "ap-" ++ region in
            let self := set_cos self
              {| Cos.secret_id := Cos.secret_id (cos self);
                 Cos.secret_key := Cos.secret_key (cos self);
                 Cos.region := region |} in
            let self := set_full_name self (name self ++ "-" ++ get_appid (cos self)) in
            _get_correct_cos_region_from rest self probes'
          else _get_correct_cos_region_from rest self probes'
      | Raise _ => _get_correct_cos_region_from rest self probes'
      end
  end.

Definition _get_correct_cos_region (self : TencentCosBucket)
  : option string * TencentCosBucket * list Probe :=
  _get_correct_cos_region_from REGIONS self [].

(** [__init__]: the constructed handle and the probes its construction made. *)
Definition __init__ (cos0 : Cos.TencentCos) (bucket_name : string)
  : TencentCosBucket * list Probe :=
  let self := {| cos := cos0; name := bucket_name;
                 full_name := bucket_name ++ "-" ++ get_appid cos0;
                 base_url := ""; region := None |} in
  let self := set_base_url self (_get_bucket_url self) in
  let '(r, self, probes) := _get_correct_cos_region self in
  (set_region self r, probes).

End RegionResolution.

(** ** The remote bucket *)

Record CosObject : Type := {
  Body : list byte;
  Metadata : list (string * string)
}.

Inductive ApiCall : Type :=
| ListObjects (Bucket Prefix : string)
| PutObject (Bucket Key : string)
| DeleteObject (Bucket Key : string)
| ObjectExists (Bucket Key : string)
| GetObject (Bucket Key : string).

(** The bucket the handle resolved to: its objects by key, in listing order,
    and the primitive calls received so far, oldest first. *)
Record Remote : Type := {
  objects : list (string * CosObject);
  calls : list ApiCall
}.

(** Methods that talk to the provider: they read and change the remote
    bucket, and either return a value or raise. *)
Definition M (A : Type) : Type := Remote -> Result A * Remote.

Definition ret {A : Type} (a : A) : M A := fun w => (Ok a, w).

Definition raise {A : Type} (e : PyExc) : M A := fun w => (Raise e, w).

Definition bind {A B : Type} (m : M A) (k : A -> M B) : M B :=
  fun w => match m w with
           | (Ok a, w') => k a w'
           | (Raise e, w') => (Raise e, w')
           end.

Definition try_except {A : Type} (m : M A) (handler : PyExc -> M A) : M A :=
  fun w => match m w with
           | (Ok a, w') => (Ok a, w')
           | (Raise e, w') => handler e w'
           end.

Definition lift {A : Type} (r : Result A) : M A := fun w => (r, w).

Declare Scope cos_scope.
Delimit Scope cos_scope with cos.
Notation "x <- m ;; k" := (bind m (fun x => k))
  (at level 61, m at next level, right associativity) : cos_scope.
Notation "m ;;; k" := (bind m (fun _ => k))
  (at level 61, right associativity) : cos_scope.
Open Scope cos_scope.

(** [for x in xs: body(x)] *)
Fixpoint for_each {A : Type} (xs : list A) (body : A -> M unit) : M unit :=
  match xs with
  | [] => ret tt
  | x :: rest => body x ;;; for_each rest body
  end.

(** ** The provider's primitives

    The storage client belongs to the provider's SDK.  This is the reference
    behaviour of the five primitives the class calls, on one bucket: keys
    are unique, a listing returns the keys that start with the prefix and
    has no [Contents] entry when there is none, a put creates or replaces,
    a delete of a missing key does nothing.

    Of the provider's errors only those of a put are modelled ([fault]
    below), as the class handles them.  A listing, a delete and an existence
    check are modelled as answering: the class does not catch their errors,
    which would leave the calling method as exceptions, so what is proved of a
    method describes its runs in which these calls answer.  During region
    resolution, where the class does handle the errors of a listing, the probe
    is a function of its own ([probe_list_objects]) that may raise. *)
Module Client.

Definition record (c : ApiCall) : M unit :=
  fun w => (Ok tt, {| objects := objects w; calls := (calls w ++ [c])%list |}).

Fixpoint lookup (Key : string) (objs : list (string * CosObject)) : option CosObject :=
  match objs with
  | [] => None
  | (k, o) :: rest => if String.eqb k Key then Some o else lookup Key rest
  end.

Fixpoint store (Key : string) (o : CosObject) (objs : list (string * CosObject))
  : list (string * CosObject) :=
  match objs with
  | [] => [(Key, o)]
  | (k, o') :: rest =>
      if String.eqb k Key then (Key, o) :: rest else (k, o') :: store Key o rest
  end.

Definition remove (Key : string) (objs : list (string * CosObject))
  : list (string * CosObject) :=
  filter (fun kv => negb (String.eqb (fst kv) Key)) objs.

(** The keys of [response['Contents']], or [None] when the response has
    no such entry. *)
Definition list_objects (Bucket Prefix : string) : M (option (list string)) :=
  record (ListObjects Bucket Prefix) ;;;
  fun w =>
    match filter (String.prefix Prefix) (map fst (objects w)) with
    | [] => (Ok None, w)
    | keys => (Ok (Some keys), w)
    end.

(** [fault] is the error, if any, with which the provider refuses a put
    to a key. *)
Definition put_object (fault : string -> option PyExc)
    (Bucket : string) (Body_ : list byte) (Key : string)
    (Metadata_ : list (string * string)) : M unit :=
  record (PutObject Bucket Key) ;;;
  match fault Key with
  | Some e => raise e
  | None =>
      fun w => (Ok tt, {| objects := store Key {| Body := Body_; Metadata := Metadata_ |}
                                           (objects w);
                          calls := calls w |})
  end.

Definition delete_object (Bucket Key : string) : M unit :=
  record (DeleteObject Bucket Key) ;;;
  fun w => (Ok tt, {| objects := remove Key (objects w); calls := calls w |}).

Definition object_exists (Bucket Key : string) : M bool :=
  record (ObjectExists Bucket Key) ;;;
  fun w => (Ok (match lookup Key (objects w) with Some _ => true | None => false end), w).

(** The response headers, among them the object's metadata. *)
Definition get_object (Bucket Key : string) : M (list (string * string)) :=
  record (GetObject Bucket Key) ;;;
  fun w => match lookup Key (objects w) with
           | Some o => (Ok (Metadata o), w)
           | None => (Raise (CosServiceError "NoSuchKey"), w)
           end.

End Client.

(** [d.get(k)] on a dictionary with string keys *)
Fixpoint dict_get (k : string) (d : list (string * string)) : option string :=
  match d with
  | [] => None
  | (k', v) :: rest => if String.eqb k' k then Some v else dict_get k rest
  end.

(** ** The methods of the bucket handle *)

(** What [delete_file] returns: a bare flag when the object is absent, the
    pair of [_delete_file] otherwise. *)
Inductive DeleteFileResult : Type :=
| Flag (ok : bool)
| FlagMsg (ok : bool) (msg : string).

Section Methods.

Variable md5_hex : list byte -> string.
Variable fs : FileSystem.
Variable put_fault : string -> option PyExc.

Variable self : TencentCosBucket.

(** [_list_objects] *)
Definition _list_objects (prefix : string) : M (list string) :=
  response <- Client.list_objects (full_name self) prefix ;;
  match response with
  | Some contents => ret (map (fun key => PyStr.replace prefix "" key) contents)
  | None => ret []
  end.

(** [list_all_dirs] *)
Definition list_all_dirs : M (list string) :=
  obs <- _list_objects "" ;;
  ret (map PyStr.init (filter (fun ob => PyStr.endswith ob "/") obs)).

(** [list_all_files] *)
Definition list_all_files : M (list string) :=
  obs <- _list_objects "" ;;
  ret (filter (fun ob => negb (PyStr.endswith ob "/")) obs).

(** [list_dir_files] *)
Definition list_dir_files (remote_dir : string) : M (list string) :=
  if negb (PyStr.mem remote_dir [""; "/"]) then
    let remote_dir :=
      if PyStr.startswith remote_dir "/" then PyStr.tail remote_dir else remote_dir in
    let remote_dir :=
      if negb (PyStr.endswith remote_dir "/") then remote_dir ++ "/" else remote_dir in
    dirs <- list_all_dirs ;;
    if negb (PyStr.mem (PyStr.init remote_dir) dirs)
    then raise (CosBucketDirNotFoundError ("Bucket dir " ++ remote_dir ++ " not found."))
    else _list_objects remote_dir
  else _list_objects remote_dir.

(** [mkdir] *)
Definition mkdir (remote_dir_path : string) : M bool :=
  let remote_dir_path :=
    if negb (PyStr.endswith remote_dir_path "/")
    then remote_dir_path ++ "/" else remote_dir_path in
  try_except
    (Client.put_object put_fault (full_name self) [] remote_dir_path [] ;;;
     ret true)
    (fun _ => ret false).

(** [_upload_object] *)
Definition _upload_object (local_file_path remote_dir : string) (overwrite : bool)
  : M (bool * string) :=
  if negb (Os.exists_ fs local_file_path)
  then ret (false, "local path: " ++ local_file_path ++ " doesnt exists")
  else
    let file_name := OsPath.name local_file_path in
    listed <- _list_objects "" ;;
    if PyStr.mem file_name listed && negb overwrite
    then ret (true, file_name ++ " already in " ++ name self ++ ", skipped!")
    else
      try_except
        (f <- lift (Os.open_rb fs local_file_path) ;;
         md5 <- lift (get_local_file_md5 md5_hex fs local_file_path) ;;
         Client.put_object put_fault (full_name self) f
           (OsPath.join remote_dir file_name) [("x-cos-meta-md5", md5)] ;;;
         ret (true, "SUCCESS"))
        (fun e => match e with
                  | CosServiceError _ => ret (false, get_error_code e)
                  | _ => ret (false, exc_str e)
                  end).

(** [upload_file] *)
Definition upload_file (local_file_path remote_dir : string) (overwrite : bool)
  : M bool :=
  r <- _upload_object local_file_path remote_dir overwrite ;;
  ret (fst r).

(** [_delete_object] *)
Definition _delete_object (object_full_path : string) : M unit :=
  Client.delete_object (full_name self) object_full_path.

(** [is_object_exists] *)
Definition is_object_exists (object_full_path : string) : M bool :=
  Client.object_exists (full_name self) object_full_path.

(** [_delete_file] *)
Definition _delete_file (remote_dir object_key : string) : M (bool * string) :=
  let remote_dir :=
    if negb (PyStr.endswith remote_dir "/") && negb (String.eqb remote_dir "")
    then remote_dir ++ "/" else remote_dir in
  listed <- list_dir_files remote_dir ;;
  if negb (PyStr.mem object_key listed)
  then ret (false, object_key ++ " not found in " ++ remote_dir)
  else _delete_object (remote_dir ++ object_key) ;;; ret (true, "").

(** [delete_file] *)
Definition delete_file (remote_file_path : string) : M DeleteFileResult :=
  present <- is_object_exists remote_file_path ;;
  if negb present then ret (Flag true)
  else
    let '(remote_dir, object_key) := _parse_object_path_name remote_file_path in
    r <- _delete_file remote_dir object_key ;;
    ret (FlagMsg (fst r) (snd r)).

(** [delete_dir_files] *)
Definition delete_dir_files (remote_dir : string) : M unit :=
  files <- list_dir_files remote_dir ;;
  for_each files _delete_object.

(** [delete_all_files] *)
Definition delete_all_files : M unit :=
  objs <- _list_objects "" ;;
  for_each objs _delete_object.

(** [_get_object_info] *)
Definition _get_object_info (object_full_path : string) : M (list (string * string)) :=
  Client.get_object (full_name self) object_full_path.

(** [_get_object_md5hash]: [None] is Python's [None]. *)
Definition _get_object_md5hash (object_full_path : string) : M (option string) :=
  response <- _get_object_info object_full_path ;;
  ret (dict_get "x-cos-meta-md5" response).

(** [get_file_md5] *)
Definition get_file_md5 (remote_file_path : string) : M (option string) :=
  present <- is_object_exists remote_file_path ;;
  if negb present then ret (Some "")
  else _get_object_md5hash remote_file_path.

(** [_get_object_url] *)
Definition _get_object_url (remote_path object_key : string) : string :=
  base_url self ++ Urllib.quote (remote_path ++ object_key).

(** [get_file_url] *)
Definition get_file_url (remote_file_path : string) : M string :=
  present <- is_object_exists remote_file_path ;;
  if negb present then ret ""
  else
    let '(remote_dir, object_key) := _parse_object_path_name remote_file_path in
    ret (_get_object_url remote_dir object_key).

End Methods.

(** ** Downloading *)

(** The local file system after [content] has been written to [p]. *)
Definition fs_write (fs : FileSystem) (p : string) (content : list byte) : FileSystem :=
  fun q => if String.eqb q p then Some (RegularFile content) else fs q.

Module Transfer.

(** [client.download_file(Bucket, Key, DestFilePath)], the SDK's one-shot
    download: it raises when the key is missing or when the destination
    cannot be written ([write_fault] is the local error, if any, for a
    destination), and otherwise leaves the object's bytes at the
    destination. *)
Definition download_file (write_fault : string -> option PyExc) (fs : FileSystem)
    (Bucket Key DestFilePath : string) : M FileSystem :=
  Client.record (GetObject Bucket Key) ;;;
  fun w =>
    match Client.lookup Key (objects w) with
    | None => (Raise (CosServiceError "NoSuchKey"), w)
    | Some o =>
        match write_fault DestFilePath with
        | Some e => (Raise e, w)
        | None => (Ok (fs_write fs DestFilePath (Body o)), w)
        end
    end.

End Transfer.

Section Download.

Variable write_fault : string -> option PyExc.
Variable fs : FileSystem.
Variable self : TencentCosBucket.

(** [_download_object]: the flag returned, and the local file system it
    leaves. *)
Definition _download_object (remote_file_path local_dir : string)
  : M (bool * FileSystem) :=
  let '(file_dir, file_name) := _parse_object_path_name remote_file_path in
  let local_file_path := OsPath.join local_dir file_name in
  try_except
    (fs' <- Transfer.download_file write_fault fs (full_name self)
              remote_file_path local_file_path ;;
     ret (true, fs'))
    (fun _ => ret (false, fs)).

(** [download_file] *)
Definition download_file (remote_file_path local_dir : string)
  : M (bool * FileSystem) :=
  _download_object remote_file_path local_dir.

End Download.

(** ** Providers and buckets used as examples *)

(** A provider on which the bucket lives in region [R] and nowhere else: the
    probe succeeds exactly for an identity pinned to [ap-R], and answers
    [NoSuchBucket] for any other. *)
Definition home_region (R : string) (n : nat) (c : Cos.TencentCos) (bucket : string)
  : Result unit :=
  if String.eqb (Cos.region c) ("ap-" ++ R) then Ok tt
  else Raise (CosServiceError "NoSuchBucket").

(** The same provider, whose very first answer is a refusal that does not
    say [NoSuchBucket]. *)
Definition denied_once (R : string) (n : nat) (c : Cos.TencentCos) (bucket : string)
  : Result unit :=
  match n with
  | O => Raise (CosServiceError "AccessDenied")
  | S _ => home_region R n c bucket
  end.

(** A provider that refuses every probe. *)
Definition always_denied (n : nat) (c : Cos.TencentCos) (bucket : string) : Result unit :=
  Raise (CosServiceError "AccessDenied").

Definition nanjing_identity : Cos.TencentCos :=
  {| Cos.secret_id := "AKID"; Cos.secret_key := "secret"; Cos.region := "ap-nanjing" |}.

Definition appid_1250000000 (c : Cos.TencentCos) : string := "1250000000".

Definition example_handle : TencentCosBucket :=
  {| cos := nanjing_identity; name := "photos"; full_name := "photos-1250000000";
     base_url := "https://photos-1250000000.cos.ap-nanjing.myqcloud.com/";
     region := Some "nanjing" |}.

Definition empty_object : CosObject := {| Body := []; Metadata := [] |}.

Definition csv_object : CosObject :=
  {| Body := [x63; x2c; x64]%byte; Metadata := [("x-cos-meta-md5", "0f0e")] |}.

Definition remote_of (objs : list (string * CosObject)) : Remote :=
  {| objects := objs; calls := [] |}.

(** A bucket with a directory [reports/] holding [x.csv], and another
    [x.csv] at the root. *)
Definition reports_bucket : Remote :=
  remote_of [("reports/", empty_object); ("reports/x.csv", csv_object);
             ("x.csv", csv_object)].

(** A local file system with the single file [local/x.csv]. *)
Definition local_fs : FileSystem :=
  fun p => if String.eqb p "local/x.csv" then Some (RegularFile [x61; x2c; x62]%byte)
           else if String.eqb p "local" then Some Directory
           else None.

Definition no_fault (Key : string) : option PyExc := None.

(** A stand-in digest for the examples: the number of bytes, in unary. *)
Definition toy_digest (data : list byte) : string :=
  String.concat "" (map (fun _ => "1") data).

(** The remote bucket after one more primitive call that changed no object. *)
Definition logged (c : ApiCall) (w : Remote) : Remote :=
  {| objects := objects w; calls := (calls w ++ [c])%list |}.

(** A provider on which the bucket exists in no region. *)
Definition nowhere (n : nat) (c : Cos.TencentCos) (bucket : string) : Result unit :=
  Raise (CosServiceError "NoSuchBucket").

(** A provider fault: every put is refused with [AccessDenied]. *)
Definition put_denied (Key : string) : option PyExc :=
  Some (CosServiceError "AccessDenied").

(** The handle of [self] after a change of identity, as the failover branch
    of [_get_correct_cos_region] builds it. *)
Definition failover (get_appid : Cos.TencentCos -> string) (self : TencentCosBucket)
    (region : string) : TencentCosBucket :=
  let self1 := set_cos self
    {| Cos.secret_id := Cos.secret_id (cos self);
       Cos.secret_key := Cos.secret_key (cos self);
       Cos.region := "ap-" ++ region |} in
  set_full_name self1 (name self1 ++ "-" ++ get_appid (cos self1)).

(** Whether probe number [i] of a trace was answered with success. *)
Definition probe_succeeded (probe : nat -> Cos.TencentCos -> string -> Result unit)
    (i : nat) (p : Probe) : Prop :=
  probe i (probe_cos p) (probe_bucket p) = Ok tt.

(** The directory names that [list_dir_files] normalises: not empty, no [/]
    at either end. *)
Definition plain_dir (d : string) : Prop :=
  d <> "" /\ PyStr.startswith d "/" = false /\ PyStr.endswith d "/" = false.

(** * Properties *)

(** ** Strings *)

Lemma str_app_assoc (a b c : string) : (a ++ b) ++ c = a ++ (b ++ c).
Proof. induction a as [|x a IH]; simpl; [reflexivity|now rewrite IH]. Qed.

Lemma str_app_nil_r (a : string) : a ++ "" = a.
Proof. induction a as [|x a IH]; simpl; [reflexivity|now rewrite IH]. Qed.

Lemma str_length_app (a b : string) :
  String.length (a ++ b) = String.length a + String.length b.
Proof. induction a as [|x a IH]; simpl; [reflexivity|now rewrite IH]. Qed.

Lemma str_app_inv_head (a b c : string) : a ++ b = a ++ c -> b = c.
Proof.
  induction a as [|x a IH]; simpl; intros H; [exact H|].
  injection H as H. apply IH, H.
Qed.

Lemma prefix_nil (s : string) : String.prefix "" s = true.
Proof. destruct s; reflexivity. Qed.

Lemma prefix_app (p s : string) : String.prefix p (p ++ s) = true.
Proof.
  induction p as [|c p IH]; simpl; [apply prefix_nil|].
  destruct (ascii_dec c c) as [_|N]; [exact IH|now elim N].
Qed.

(** ** Splitting and joining *)

Lemma split_not_nil (sep : ascii) (s : string) : PyStr.split sep s <> [].
Proof.
  destruct s as [|c s]; simpl; [discriminate|].
  destruct (Ascii.eqb c sep); [discriminate|].
  destruct (PyStr.split sep s); discriminate.
Qed.

Lemma join_split (sep : ascii) (s : string) :
  PyStr.join (String sep "") (PyStr.split sep s) = s.
Proof.
  unfold PyStr.join.
  induction s as [|c s IH]; simpl; [reflexivity|].
  destruct (Ascii.eqb c sep) eqn:E.
  - apply Ascii.eqb_eq in E; subst c.
    pose proof (split_not_nil sep s) as Hne.
    destruct (PyStr.split sep s) as [|h t] eqn:Es; [contradiction|].
    simpl. simpl in IH. rewrite IH. reflexivity.
  - pose proof (split_not_nil sep s) as Hne.
    destruct (PyStr.split sep s) as [|h t] eqn:Es; [contradiction|].
    simpl in *. destruct t; simpl in *; rewrite <- IH; reflexivity.
Qed.

Lemma split_last_no_sep (sep : ascii) (s : string) :
  PyStr.contains_char sep (last (PyStr.split sep s) "") = false.
Proof.
  induction s as [|c s IH]; simpl; [reflexivity|].
  pose proof (split_not_nil sep s) as Hne.
  destruct (Ascii.eqb c sep) eqn:E.
  - destruct (PyStr.split sep s) as [|h t]; [contradiction|exact IH].
  - destruct (PyStr.split sep s) as [|h t]; [contradiction|].
    destruct t as [|h' t']; [|exact IH].
    simpl in *. rewrite E, IH. reflexivity.
Qed.

Lemma join_removelast_last (sep : string) (l : list string) :
  2 <= length l ->
  String.concat sep (removelast l) ++ sep ++ last l "" = String.concat sep l.
Proof.
  induction l as [|a l IH]; simpl; [lia|].
  intros Hlen.
  destruct l as [|b l]; [simpl in Hlen; lia|].
  destruct l as [|c l].
  - simpl. reflexivity.
  - remember (c :: l) as r.
    assert (Hr : 2 <= length (b :: r)) by (subst r; simpl; lia).
    specialize (IH Hr).
    change (last (a :: b :: r) "") with (last (b :: r) "").
    destruct (removelast (b :: r)) as [|x xs] eqn:Er.
    + subst r. simpl in Er. destruct l; discriminate.
    + rewrite <- IH. simpl.
      rewrite !str_app_assoc. reflexivity.
Qed.

Lemma split_length_sep (sep : ascii) (s : string) :
  PyStr.contains_char sep s = true -> 2 <= length (PyStr.split sep s).
Proof.
  induction s as [|c s IH]; simpl; [discriminate|].
  pose proof (split_not_nil sep s) as Hne.
  destruct (Ascii.eqb c sep) eqn:E; simpl.
  - intros _. destruct (PyStr.split sep s); [contradiction|simpl; lia].
  - intros H. specialize (IH H).
    destruct (PyStr.split sep s); simpl in *; lia.
Qed.

(** C6, as the code has it: for every path, the leaf returned by
    [_parse_object_path_name] contains no [/]; a path with a [/] is the
    returned directory, a [/] and the leaf (the split is on the last [/], and
    the directory keeps a leading [/]); a path with no [/] yields the empty
    directory and itself.  So ["/a/b/c.txt"] parses to [("/a/b", "c.txt")] and
    ["c.txt"] to [("", "c.txt")]. *)
Theorem parse_splits_on_last_slash :
  (forall p : string,
     let '(d, l) := _parse_object_path_name p in
     PyStr.contains_char slash l = false
     /\ (if PyStr.contains_char slash p then p = d ++ "/" ++ l
         else d = "" /\ l = p))
  /\ _parse_object_path_name "/a/b/c.txt" = ("/a/b", "c.txt")
  /\ _parse_object_path_name "c.txt" = ("", "c.txt").
Proof.
  split; [|split; reflexivity].
  intros p. unfold _parse_object_path_name.
  destruct (PyStr.contains_char slash p) eqn:Hp; cbn [negb].
  - split; [apply split_last_no_sep|].
    unfold PyStr.join.
    rewrite (join_removelast_last "/" (PyStr.split slash p)).
    + symmetry. apply (join_split slash p).
    + apply split_length_sep, Hp.
  - auto.
Qed.

(** C6, as the spec words it, fails on a path with a leading [/]: the
    directory returned for ["/a/b/c.txt"] is not ["a/b"]. *)
Lemma parse_leading_slash_kept :
  _parse_object_path_name "/a/b/c.txt" <> ("a/b", "c.txt").
Proof. discriminate. Qed.

(** ** Region resolution *)

Section ResolutionFacts.

Variable get_appid : Cos.TencentCos -> string.
Variable probe : nat -> Cos.TencentCos -> string -> Result unit.

Local Abbreviation resolve_from := (_get_correct_cos_region_from get_appid probe).

(** The loop only ever adds probes at the end of those already made. *)
Lemma resolution_extends_probes (regions : list string) :
  forall self probes,
    exists more, snd (resolve_from regions self probes) = (probes ++ more)%list.
Proof.
  induction regions as [|r rest IH]; intros self probes; simpl.
  - exists []. now rewrite app_nil_r.
  - set (p := {| probe_cos := cos self; probe_bucket := full_name self |}).
    assert (Hstep : forall self', exists more,
               snd (_get_correct_cos_region_from get_appid probe rest self'
                      (probes ++ [p])) = (probes ++ more)%list).
    { intros self'. destruct (IH self' (probes ++ [p])%list) as [more Hm].
      exists (p :: more). rewrite Hm, <- app_assoc. reflexivity. }
    destruct (probe (length probes) (cos self) (full_name self)) as [[]|e].
    + exists [p]. reflexivity.
    + destruct e; try apply Hstep.
      destruct (String.eqb error_code "NoSuchBucket"); apply Hstep.
Qed.

(** No iteration touches the short name or the base URL. *)
Lemma resolution_keeps_name_and_url (regions : list string) :
  forall self probes,
    let self' := snd (fst (resolve_from regions self probes)) in
    name self' = name self /\ base_url self' = base_url self.
Proof.
  induction regions as [|r rest IH]; intros self probes; simpl; [auto|].
  destruct (probe (length probes) (cos self) (full_name self)) as [[]|e];
    simpl; [auto|].
  destruct e; try apply IH.
  destruct (String.eqb error_code "NoSuchBucket"); [|apply IH].
  match goal with
  | |- context [_get_correct_cos_region_from _ _ rest ?s ?p] =>
      destruct (IH s p) as [Hn Hu]
  end.
  simpl in *. auto.
Qed.

(** The fully-qualified name follows every change of identity. *)
Lemma resolution_keeps_full_name_consistent (regions : list string) :
  forall self probes,
    full_name self = name self ++ "-" ++ get_appid (cos self) ->
    let self' := snd (fst (resolve_from regions self probes)) in
    full_name self' = name self' ++ "-" ++ get_appid (cos self').
Proof.
  induction regions as [|r rest IH]; intros self probes Hok; simpl; [exact Hok|].
  destruct (probe (length probes) (cos self) (full_name self)) as [[]|e];
    simpl; [exact Hok|].
  destruct e; try (apply IH; exact Hok).
  destruct (String.eqb error_code "NoSuchBucket"); [|apply IH; exact Hok].
  apply IH. reflexivity.
Qed.

(** One iteration of the loop, by the answer to its probe. *)
Lemma resolution_step_ok (region : string) (rest : list string)
    (self : TencentCosBucket) (probes : list Probe) :
  probe (length probes) (cos self) (full_name self) = Ok tt ->
  resolve_from (region :: rest) self probes
  = (Some region, self,
     (probes ++ [{| probe_cos := cos self; probe_bucket := full_name self |}])%list).
Proof.
  intros Hp. cbn [_get_correct_cos_region_from]. now rewrite Hp.
Qed.

Lemma resolution_step_other (region : string) (rest : list string)
    (self : TencentCosBucket) (probes : list Probe) (e : PyExc) :
  probe (length probes) (cos self) (full_name self) = Raise e ->
  e <> CosServiceError "NoSuchBucket" ->
  resolve_from (region :: rest) self probes
  = resolve_from rest self
      (probes ++ [{| probe_cos := cos self; probe_bucket := full_name self |}])%list.
Proof.
  intros Hp Hne. cbn [_get_correct_cos_region_from].
  rewrite Hp. destruct e; try reflexivity.
  destruct (String.eqb error_code "NoSuchBucket") eqn:E; [|reflexivity].
  apply String.eqb_eq in E. subst. now elim Hne.
Qed.

(** An iteration makes its probe before anything else. *)
Lemma resolution_probes_first (region : string) (rest : list string)
    (self : TencentCosBucket) (probes : list Probe) :
  exists more,
    snd (resolve_from (region :: rest) self probes)
    = (probes ++ {| probe_cos := cos self; probe_bucket := full_name self |} :: more)%list.
Proof.
  cbn [_get_correct_cos_region_from].
  set (p := {| probe_cos := cos self; probe_bucket := full_name self |}).
  assert (Hstep : forall self', exists more,
             snd (_get_correct_cos_region_from get_appid probe rest self'
                    (probes ++ [p])) = (probes ++ p :: more)%list).
  { intros self'.
    destruct (resolution_extends_probes rest self' (probes ++ [p])%list) as [more Hm].
    exists more. rewrite Hm, <- app_assoc. reflexivity. }
  destruct (probe (length probes) (cos self) (full_name self)) as [[]|e].
  - exists []. reflexivity.
  - destruct e; try apply Hstep.
    destruct (String.eqb error_code "NoSuchBucket"); apply Hstep.
Qed.

End ResolutionFacts.

Lemma home_region_hit (R : string) (n : nat) (c : Cos.TencentCos) (bucket : string) :
  Cos.region c = "ap-" ++ R -> home_region R n c bucket = Ok tt.
Proof. intros H. unfold home_region. now rewrite H, String.eqb_refl. Qed.

Lemma home_region_miss (R : string) (n : nat) (c : Cos.TencentCos) (bucket : string) :
  Cos.region c <> "ap-" ++ R ->
  home_region R n c bucket = Raise (CosServiceError "NoSuchBucket").
Proof.
  intros H. unfold home_region.
  apply String.eqb_neq in H. now rewrite H.
Qed.

(** On a provider where the bucket lives in [R] only, a loop that starts with
    an identity not pinned to [R], over candidates of which the [i]-th is the
    first to be [R], returns the candidate after it. *)
Lemma home_region_loop (get_appid : Cos.TencentCos -> string) (R : string) :
  forall (regions : list string) (i : nat) (self : TencentCosBucket)
         (probes : list Probe),
    nth_error regions i = Some R ->
    (forall j, j < i -> nth_error regions j <> Some R) ->
    Cos.region (cos self) <> "ap-" ++ R ->
    let '(r, self', probes') :=
      _get_correct_cos_region_from get_appid (home_region R) regions self probes in
    r = nth_error regions (S i)
    /\ length probes' = length probes + Nat.min (i + 2) (length regions)
    /\ Cos.region (cos self') = "ap-" ++ R.
Proof.
  induction regions as [|c rest IH]; intros i self probes Hi Hbefore Hne.
  - destruct i; discriminate Hi.
  - cbn [_get_correct_cos_region_from].
    rewrite home_region_miss by exact Hne.
    rewrite String.eqb_refl.
    destruct i as [|i].
    + injection Hi as ->.
      destruct rest as [|c' rest'].
      * cbn [_get_correct_cos_region_from nth_error].
        rewrite length_app. cbn [length Nat.min Nat.add cos set_cos set_full_name Cos.region].
        repeat split; lia.
      * cbn [_get_correct_cos_region_from].
        rewrite home_region_hit by reflexivity.
        rewrite !length_app.
        cbn [length nth_error Nat.min Nat.add cos set_cos set_full_name Cos.region].
        repeat split; lia.
    + cbn [nth_error] in Hi.
      assert (Hc : c <> R).
      { intros ->. apply (Hbefore 0); [lia|reflexivity]. }
      match goal with
      | |- context [_get_correct_cos_region_from _ _ rest ?s ?p] =>
          specialize (IH i s p Hi)
      end.
      destruct (_get_correct_cos_region_from get_appid (home_region R) rest _ _)
        as [[r self'] probes'].
      destruct IH as (Hr & Hlen & Hcos).
      * intros j Hj. apply (Hbefore (S j)). lia.
      * cbn [cos set_cos set_full_name Cos.region].
        intros H. apply str_app_inv_head in H. contradiction.
      * rewrite length_app in Hlen. cbn [length] in Hlen |- *.
        cbn [nth_error]. repeat split; try assumption.
        rewrite Hlen. replace (S i + 2) with (S (i + 2)) by lia.
        cbn [Nat.min]. lia.
Qed.

Lemma REGIONS_NoDup : NoDup REGIONS.
Proof.
  unfold REGIONS.
  repeat (constructor; [cbn [In]; intuition discriminate|]).
  constructor.
Qed.

Lemma regions_before_differ (i : nat) (R : string) :
  nth_error REGIONS i = Some R ->
  forall j, j < i -> nth_error REGIONS j <> Some R.
Proof.
  intros Hi j Hj Hjr. rewrite <- Hi in Hjr.
  apply (proj1 (NoDup_nth_error REGIONS) REGIONS_NoDup) in Hjr; [lia|].
  apply nth_error_Some. rewrite Hjr, Hi. discriminate.
Qed.

(** C1, on the code: on a provider where the bucket lives in the candidate
    [R] only, and for a handle built from an identity that is not pinned to
    [R], construction ends with the identity pinned to [R] but returns the
    candidate that FOLLOWS [R] in the list (none for the last candidate),
    after one probe more than the position of [R] (seven for the last). *)
Theorem resolution_returns_next_candidate :
  forall (get_appid : Cos.TencentCos -> string) (c0 : Cos.TencentCos)
         (bucket_name : string) (i : nat) (R : string),
    nth_error REGIONS i = Some R ->
    Cos.region c0 <> "ap-" ++ R ->
    let '(h, probes) := __init__ get_appid (home_region R) c0 bucket_name in
    region h = nth_error REGIONS (S i)
    /\ length probes = Nat.min (i + 2) 7
    /\ Cos.region (cos h) = "ap-" ++ R
    /\ region h <> Some R.
Proof.
  intros get_appid c0 bucket_name i R HR Hne.
  unfold __init__, _get_correct_cos_region.
  set (self0 := set_base_url _ _).
  pose proof (@home_region_loop get_appid R REGIONS i self0 [] HR
                (@regions_before_differ i R HR) Hne) as H.
  destruct (_get_correct_cos_region_from get_appid (home_region R) REGIONS self0 [])
    as [[r self'] probes].
  destruct H as (Hr & Hlen & Hcos).
  cbn [region cos set_region].
  repeat split; try assumption.
  rewrite Hr, <- HR. intros Heq.
  apply (proj1 (NoDup_nth_error REGIONS) REGIONS_NoDup) in Heq; [lia|].
  apply nth_error_Some. rewrite Heq, HR. discriminate.
Qed.

(** The bucket lives in guangzhou, the fourth candidate, and the caller's
    identity is pinned to nanjing: the handle reports shanghai after five
    probes. *)
Lemma resolution_guangzhou_reports_shanghai :
  let '(h, probes) :=
    __init__ appid_1250000000 (home_region "guangzhou") nanjing_identity "photos" in
  region h = Some "shanghai"
  /\ length probes = 5
  /\ Cos.region (cos h) = "ap-guangzhou"
  /\ region h <> Some "guangzhou".
Proof.
  exact (resolution_returns_next_candidate appid_1250000000 nanjing_identity
           "photos" 3 (R := "guangzhou") eq_refl ltac:(discriminate)).
Defined.

(** When the caller's identity is already pinned to the bucket's region, the
    first probe succeeds and the handle reports the first candidate, nanjing,
    whatever the region is. *)
Lemma resolution_pinned_identity_reports_nanjing :
  forall (get_appid : Cos.TencentCos -> string) (c0 : Cos.TencentCos)
         (bucket_name R : string),
    Cos.region c0 = "ap-" ++ R ->
    let '(h, probes) := __init__ get_appid (home_region R) c0 bucket_name in
    region h = Some "nanjing" /\ length probes = 1 /\ cos h = c0.
Proof.
  intros get_appid c0 bucket_name R Hpin.
  unfold __init__, _get_correct_cos_region, REGIONS.
  rewrite resolution_step_ok by (apply home_region_hit; exact Hpin).
  repeat split.
Qed.

(** C2, on the code: when the first probe fails with anything but
    [NoSuchBucket], the loop goes on to the next candidate with the handle
    unchanged, so a second probe is always made, with the same identity and
    bucket name as the first. *)
Theorem other_error_does_not_stop_resolution :
  forall (get_appid : Cos.TencentCos -> string)
         (probe : nat -> Cos.TencentCos -> string -> Result unit)
         (self : TencentCosBucket) (e : PyExc),
    probe 0 (cos self) (full_name self) = Raise e ->
    e <> CosServiceError "NoSuchBucket" ->
    let p0 := {| probe_cos := cos self; probe_bucket := full_name self |} in
    _get_correct_cos_region get_appid probe self
    = _get_correct_cos_region_from get_appid probe
        ["chengdu"; "beijing"; "guangzhou"; "shanghai"; "chongqing"; "hongkong"]
        self [p0]
    /\ exists more,
         snd (_get_correct_cos_region get_appid probe self) = (p0 :: p0 :: more)%list.
Proof.
  intros get_appid probe self e Hp Hne p0.
  assert (Hfirst : _get_correct_cos_region get_appid probe self
                   = _get_correct_cos_region_from get_appid probe
                       ["chengdu"; "beijing"; "guangzhou"; "shanghai";
                        "chongqing"; "hongkong"] self [p0]).
  { unfold _get_correct_cos_region, REGIONS.
    exact (resolution_step_other get_appid probe "nanjing" _ self [] Hp Hne). }
  split; [exact Hfirst|].
  rewrite Hfirst.
  exact (resolution_probes_first get_appid probe "chengdu" _ self [p0]).
Qed.

(** A refusal followed by a successful answer: the handle built from an
    identity pinned to nanjing, for a bucket that lives in nanjing, probes
    twice and reports chengdu. *)
Lemma denied_once_still_resolves :
  let p0 := {| probe_cos := cos example_handle;
               probe_bucket := full_name example_handle |} in
  (_get_correct_cos_region appid_1250000000 (denied_once "nanjing") example_handle
   = _get_correct_cos_region_from appid_1250000000 (denied_once "nanjing")
       ["chengdu"; "beijing"; "guangzhou"; "shanghai"; "chongqing"; "hongkong"]
       example_handle [p0]
   /\ exists more,
        snd (_get_correct_cos_region appid_1250000000 (denied_once "nanjing")
               example_handle) = (p0 :: p0 :: more)%list)
  /\ _get_correct_cos_region appid_1250000000 (denied_once "nanjing") example_handle
     = (Some "chengdu", example_handle, [p0; p0]).
Proof.
  split.
  - exact (other_error_does_not_stop_resolution appid_1250000000
             (denied_once "nanjing") example_handle
             (e := CosServiceError "AccessDenied") eq_refl ltac:(discriminate)).
  - reflexivity.
Defined.

(** A provider that refuses every probe is probed once per candidate, seven
    times in all, always with the caller's identity. *)
Lemma always_denied_probes_seven_times :
  let '(h, probes) := __init__ appid_1250000000 always_denied nanjing_identity "photos" in
  region h = None
  /\ length probes = 7
  /\ Forall (fun p => probe_cos p = nanjing_identity) probes.
Proof.
  cbv. repeat split. repeat constructor.
Qed.

(** C3, on the code: the fully-qualified name of a constructed handle always
    matches its final identity, but its base URL is the one computed from the
    caller's identity before resolution started.  After a failover from
    nanjing to chengdu the base URL still names nanjing, and differs from the
    URL of the handle's identity. *)
Theorem base_url_not_recomputed_on_failover :
  (forall (get_appid : Cos.TencentCos -> string)
          (probe : nat -> Cos.TencentCos -> string -> Result unit)
          (c0 : Cos.TencentCos) (bucket_name : string),
      let h := fst (__init__ get_appid probe c0 bucket_name) in
      name h = bucket_name
      /\ full_name h = name h ++ "-" ++ get_appid (cos h)
      /\ base_url h = "https://" ++ (bucket_name ++ "-" ++ get_appid c0) ++ ".cos."
                      ++ Cos.region c0 ++ ".myqcloud.com/")
  /\ (let h := fst (__init__ appid_1250000000 (home_region "chengdu")
                      nanjing_identity "photos") in
      Cos.region (cos h) = "ap-chengdu"
      /\ base_url h = "https://photos-1250000000.cos.ap-nanjing.myqcloud.com/"
      /\ _get_bucket_url h = "https://photos-1250000000.cos.ap-chengdu.myqcloud.com/"
      /\ base_url h <> _get_bucket_url h).
Proof.
  split.
  - intros get_appid probe c0 bucket_name.
    unfold __init__, _get_correct_cos_region.
    set (self0 := set_base_url _ _).
    pose proof (resolution_keeps_name_and_url get_appid probe REGIONS self0 [])
      as [Hn Hu].
    pose proof (resolution_keeps_full_name_consistent get_appid probe REGIONS
                  self0 [] eq_refl) as Hf.
    destruct (_get_correct_cos_region_from get_appid probe REGIONS self0 [])
      as [[r self'] probes].
    subst self0.
    cbn [fst snd set_base_url set_region name full_name base_url cos] in *.
    cbv zeta. cbn [fst set_region name full_name base_url cos].
    repeat split.
    + exact Hn.
    + rewrite Hf, Hn. reflexivity.
    + rewrite Hu. reflexivity.
  - vm_compute. repeat split. discriminate.
Qed.

(** ** Replacing and listing *)

Lemma intersperse_empty (s : string) : PyStr.intersperse "" s = s.
Proof. induction s as [|c s IH]; simpl; [reflexivity|now rewrite IH]. Qed.

Lemma replace_empty_by_empty (s : string) : PyStr.replace "" "" s = s.
Proof. apply intersperse_empty. Qed.

Lemma replace_from_skips (old new u s : string) :
  PyStr.replace_from old new (String.length u) (u ++ s)
  = PyStr.replace_from old new 0 s.
Proof.
  induction u as [|c u IH]; simpl; [reflexivity|exact IH].
Qed.

(** An occurrence at the front is replaced, and the scan resumes after it. *)
Lemma replace_at_occurrence (old new s : string) :
  old <> "" ->
  PyStr.replace old new (old ++ s) = new ++ PyStr.replace old new s.
Proof.
  destruct old as [|c old]; [now intros H; elim H|intros _].
  unfold PyStr.replace.
  change (String c old ++ s) with (String c (old ++ s)).
  cbn [PyStr.replace_from].
  change (String c (old ++ s)) with (String c old ++ s).
  rewrite prefix_app.
  replace (String.length (String c old) - 1) with (String.length old)
    by (cbn [String.length]; lia).
  now rewrite replace_from_skips.
Qed.

(** Where no occurrence starts, the character is kept. *)
Lemma replace_no_occurrence (old new : string) (c : ascii) (s : string) :
  old <> "" ->
  String.prefix old (String c s) = false ->
  PyStr.replace old new (String c s) = String c (PyStr.replace old new s).
Proof.
  destruct old as [|d old]; [now intros H; elim H|intros _ Hp].
  unfold PyStr.replace. cbn [PyStr.replace_from].
  now rewrite Hp.
Qed.

Lemma filter_prefix_nil (keys : list string) :
  filter (String.prefix "") keys = keys.
Proof.
  induction keys as [|k keys IH]; simpl; [reflexivity|].
  now rewrite prefix_nil, IH.
Qed.

Lemma map_replace_empty (keys : list string) :
  map (fun key => PyStr.replace "" "" key) keys = keys.
Proof.
  induction keys as [|k keys IH]; cbn [map]; [reflexivity|].
  now rewrite replace_empty_by_empty, IH.
Qed.

(** What [_list_objects] returns and leaves behind. *)
Lemma list_objects_spec (self : TencentCosBucket) (prefix : string) (w : Remote) :
  _list_objects self prefix w
  = (Ok (map (fun key => PyStr.replace prefix "" key)
             (filter (String.prefix prefix) (map fst (objects w)))),
     logged (ListObjects (full_name self) prefix) w).
Proof.
  unfold _list_objects, Client.list_objects, Client.record, bind, ret, logged.
  cbn [objects].
  destruct (filter (String.prefix prefix) (map fst (objects w))); reflexivity.
Qed.

Lemma list_objects_root (self : TencentCosBucket) (w : Remote) :
  _list_objects self "" w
  = (Ok (map fst (objects w)), logged (ListObjects (full_name self) "") w).
Proof.
  rewrite list_objects_spec, filter_prefix_nil, map_replace_empty. reflexivity.
Qed.



(** C8, on the code: both [""] and ["/"] skip the directory check (a single
    listing call is made), and [""] lists every key of the bucket; but ["/"]
    is passed on as the listing prefix, so it lists only the keys that start
    with [/], with every [/] removed.  On a bucket holding [a.txt] the two
    calls differ. *)
Theorem root_listing_slash_differs :
  (forall (self : TencentCosBucket) (w : Remote),
      list_dir_files self "" w
      = (Ok (map fst (objects w)), logged (ListObjects (full_name self) "") w)
      /\ list_dir_files self "/" w
         = (Ok (map (PyStr.replace "/" "")
                    (filter (String.prefix "/") (map fst (objects w)))),
            logged (ListObjects (full_name self) "/") w))
  /\ (forall self : TencentCosBucket,
        fst (list_dir_files self "" (remote_of [("a.txt", csv_object)])) = Ok ["a.txt"]
        /\ fst (list_dir_files self "/" (remote_of [("a.txt", csv_object)])) = Ok []
        /\ fst (list_dir_files self "/" (remote_of [("a.txt", csv_object)]))
           <> fst (list_dir_files self "" (remote_of [("a.txt", csv_object)]))).
Proof.
  split.
  - intros self w. unfold list_dir_files. cbn [PyStr.mem existsb String.eqb negb].
    split.
    + apply list_objects_root.
    + simpl. apply list_objects_spec.
  - intros self. repeat split. discriminate.
Qed.

(** ** Object URLs *)

(** C4, on the code: for an existing key, [get_file_url] appends to the base
    URL the percent-encoding of the parsed directory immediately followed by
    the leaf, without the [/] that separated them.  For ["reports/x.csv"] the
    result ends in [reportsx.csv], not in the encoding of the key. *)
Theorem object_url_drops_separator :
  forall (self : TencentCosBucket) (w : Remote) (path : string),
    Client.lookup path (objects w) <> None ->
    fst (get_file_url self path w)
    = Ok (base_url self
          ++ Urllib.quote (fst (_parse_object_path_name path)
                           ++ snd (_parse_object_path_name path)))
    /\ (path = "reports/x.csv" ->
        fst (get_file_url self path w) = Ok (base_url self ++ "reportsx.csv")
        /\ fst (get_file_url self path w)
           <> Ok (base_url self ++ Urllib.quote "reports/x.csv")).
Proof.
  intros self w path Hin.
  assert (Hurl : fst (get_file_url self path w)
                 = Ok (base_url self
                       ++ Urllib.quote (fst (_parse_object_path_name path)
                                        ++ snd (_parse_object_path_name path)))).
  { unfold get_file_url, is_object_exists, Client.object_exists, Client.record,
      bind, ret.
    cbn [objects].
    destruct (Client.lookup path (objects w)); [|now elim Hin].
    cbn [negb]. destruct (_parse_object_path_name path). reflexivity. }
  split; [exact Hurl|].
  intros ->. rewrite Hurl. split; [reflexivity|].
  intros H. injection H as H. apply str_app_inv_head in H. discriminate.
Qed.

Lemma object_url_drops_separator_reports :
  fst (get_file_url example_handle "reports/x.csv" reports_bucket)
  = Ok "https://photos-1250000000.cos.ap-nanjing.myqcloud.com/reportsx.csv"
  /\ fst (get_file_url example_handle "reports/x.csv" reports_bucket)
     <> Ok (base_url example_handle ++ Urllib.quote "reports/x.csv").
Proof.
  pose proof (@object_url_drops_separator example_handle reports_bucket
                "reports/x.csv" ltac:(discriminate)) as [_ H].
  exact (H eq_refl).
Defined.

(** ** Deleting *)

(** A run of deletes removes the keys it is given, one call each. *)
Lemma for_each_delete (self : TencentCosBucket) (files : list string) :
  forall w,
    for_each files (_delete_object self) w
    = (Ok tt,
       {| objects := fold_left (fun objs key => Client.remove key objs) files (objects w);
          calls := (calls w ++ map (DeleteObject (full_name self)) files)%list |}).
Proof.
  induction files as [|f files IH]; intros w.
  - simpl. unfold ret. destruct w. simpl. now rewrite app_nil_r.
  - cbn [for_each]. unfold bind at 1.
    unfold _delete_object at 1, Client.delete_object, Client.record, bind.
    rewrite IH. simpl. now rewrite <- app_assoc.
Qed.

(** [delete_dir_files] deletes the names its listing returned, as keys. *)
Lemma delete_dir_files_spec (self : TencentCosBucket) (dir : string)
    (w w1 : Remote) (files : list string) :
  list_dir_files self dir w = (Ok files, w1) ->
  delete_dir_files self dir w
  = (Ok tt,
     {| objects := fold_left (fun objs key => Client.remove key objs) files (objects w1);
        calls := (calls w1 ++ map (DeleteObject (full_name self)) files)%list |}).
Proof.
  intros H. unfold delete_dir_files, bind. rewrite H. apply for_each_delete.
Qed.

(** C5, on the code: in a bucket with [reports/], [reports/x.csv] and a
    root-level [x.csv], [delete_dir_files("reports")] issues one delete per
    listed name, but the names are the keys without their directory: it
    deletes the keys [""] and ["x.csv"], so the root-level file is lost, the
    directory keeps its file, and listing the directory again returns the
    same two names. *)
Theorem delete_dir_files_misses_directory :
  forall self : TencentCosBucket,
    fst (list_dir_files self "reports" reports_bucket) = Ok [""; "x.csv"]
    /\ (let '(r, w1) := delete_dir_files self "reports" reports_bucket in
        r = Ok tt
        /\ objects w1 = [("reports/", empty_object); ("reports/x.csv", csv_object)]
        /\ calls w1 = [ListObjects (full_name self) "";
                       ListObjects (full_name self) "reports/";
                       DeleteObject (full_name self) "";
                       DeleteObject (full_name self) "x.csv"]
        /\ fst (list_dir_files self "reports" w1) = Ok [""; "x.csv"]
        /\ fst (list_dir_files self "reports" w1) <> Ok []).
Proof.
  intros self. split; [reflexivity|].
  cbv -[full_name]. repeat split. discriminate.
Qed.

(** ** Uploading *)

Lemma mem_keys_lookup (Key : string) (objs : list (string * CosObject)) :
  PyStr.mem Key (map fst objs)
  = match Client.lookup Key objs with Some _ => true | None => false end.
Proof.
  unfold PyStr.mem.
  induction objs as [|[k o] objs IH]; simpl; [reflexivity|].
  rewrite (String.eqb_sym Key k).
  destruct (String.eqb k Key); simpl; [reflexivity|exact IH].
Qed.

Lemma lookup_store_same (Key : string) (o : CosObject)
    (objs : list (string * CosObject)) :
  Client.lookup Key (Client.store Key o objs) = Some o.
Proof.
  induction objs as [|[k o'] objs IH]; simpl.
  - now rewrite String.eqb_refl.
  - destruct (String.eqb k Key) eqn:E; simpl.
    + now rewrite String.eqb_refl.
    + now rewrite E.
Qed.

(** The streamed reads feed the digest every byte of the file, in order. *)
Lemma md5_read_loop_feeds_all (rounds : nat) :
  forall unread md5hash : list byte,
    length unread < rounds ->
    md5_read_loop rounds unread md5hash = (md5hash ++ unread)%list.
Proof.
  induction rounds as [|rounds IH]; intros unread md5hash Hlen; [lia|].
  cbn [md5_read_loop].
  destruct (firstn 128 unread) as [|b buffer] eqn:E.
  - destruct unread; [now rewrite app_nil_r|discriminate E].
  - rewrite <- E. unfold md5_update.
    rewrite IH.
    + now rewrite <- app_assoc, firstn_skipn.
    + rewrite length_skipn.
      destruct unread; [discriminate E|]. simpl in Hlen |- *. lia.
Qed.

Lemma get_local_file_md5_spec (md5_hex : list byte -> string) (fs : FileSystem)
    (local_file_path : string) (content : list byte) :
  fs local_file_path = Some (RegularFile content) ->
  get_local_file_md5 md5_hex fs local_file_path = Ok (md5_hex content).
Proof.
  intros H. unfold get_local_file_md5, Os.isfile, Os.open_rb, md5_hexdigest.
  rewrite H. cbn [negb].
  rewrite md5_read_loop_feeds_all by lia. reflexivity.
Qed.

(** C7, as the code has it: when the local path exists and the bucket holds
    an object whose key IS the leaf name (a namesake at the root of the
    bucket), an upload with [overwrite=false] to any directory makes a single
    listing call and no put, leaves every object of the bucket as it was, and
    returns success with the message that the file was skipped. *)
Theorem upload_no_overwrite_skips_root_namesake :
  forall (md5_hex : list byte -> string) (fs : FileSystem)
         (put_fault : string -> option PyExc) (self : TencentCosBucket)
         (w : Remote) (local_file_path remote_dir : string),
    Os.exists_ fs local_file_path = true ->
    Client.lookup (OsPath.name local_file_path) (objects w) <> None ->
    _upload_object md5_hex fs put_fault self local_file_path remote_dir false w
    = (Ok (true, OsPath.name local_file_path ++ " already in " ++ name self
                 ++ ", skipped!"),
       logged (ListObjects (full_name self) "") w).
Proof.
  intros md5_hex fs put_fault self w local_file_path remote_dir Hex Hin.
  unfold _upload_object. rewrite Hex. cbn [negb].
  unfold bind at 1. rewrite list_objects_root.
  rewrite mem_keys_lookup.
  destruct (Client.lookup (OsPath.name local_file_path) (objects w));
    [reflexivity|now elim Hin].
Qed.

Lemma upload_no_overwrite_skips_root_namesake_reports :
  _upload_object toy_digest local_fs no_fault example_handle
    "local/x.csv" "reports" false reports_bucket
  = (Ok (true, "x.csv already in photos, skipped!"),
     logged (ListObjects "photos-1250000000" "") reports_bucket).
Proof.
  exact (@upload_no_overwrite_skips_root_namesake toy_digest local_fs no_fault
            example_handle reports_bucket "local/x.csv" "reports"
            eq_refl ltac:(discriminate)).
Defined.

(** C7, as the spec words it, fails: an object with the same leaf name in
    another directory ([other/x.csv]) does not stop an upload with
    [overwrite=false]; a put is made and the plain success message returned. *)
Lemma upload_no_overwrite_ignores_other_directories :
  let w := remote_of [("other/x.csv", csv_object)] in
  let '(r, w') := _upload_object toy_digest local_fs no_fault example_handle
                    "local/x.csv" "reports" false w in
  (exists key, In key (map fst (objects w))
               /\ snd (_parse_object_path_name key) = OsPath.name "local/x.csv")
  /\ ~ (forall Bucket Key, ~ In (PutObject Bucket Key) (calls w'))
  /\ r = Ok (true, "SUCCESS")
  /\ map fst (objects w') = ["other/x.csv"; "reports/x.csv"].
Proof.
  cbv zeta.
  change (_upload_object toy_digest local_fs no_fault example_handle
            "local/x.csv" "reports" false (remote_of [("other/x.csv", csv_object)]))
    with (Ok (true, "SUCCESS"),
          {| objects := [("other/x.csv", csv_object);
                         ("reports/x.csv",
                          {| Body := [x61; x2c; x62]%byte;
                             Metadata := [("x-cos-meta-md5", "111")] |})];
             calls := [ListObjects "photos-1250000000" "";
                       PutObject "photos-1250000000" "reports/x.csv"] |}).
  repeat split.
  - exists "other/x.csv". split; [left|]; reflexivity.
  - intros H. apply (H "photos-1250000000" "reports/x.csv"). right. left. reflexivity.
Qed.




(** * Further properties *)

(** ** Region resolution, for any provider *)

Section ResolutionTraces.

Variable get_appid : Cos.TencentCos -> string.
Variable probe : nat -> Cos.TencentCos -> string -> Result unit.

Local Abbreviation resolve_from := (_get_correct_cos_region_from get_appid probe).
Local Abbreviation probe_of self :=
  {| probe_cos := cos self; probe_bucket := full_name self |}.

(** After a failed probe the loop goes on with the handle as it was or with
    the identity changed to the candidate of this iteration. *)
Lemma resolution_step_fail (region : string) (rest : list string)
    (self : TencentCosBucket) (probes : list Probe) (e : PyExc) :
  probe (length probes) (cos self) (full_name self) = Raise e ->
  exists self',
    (self' = self \/ self' = failover get_appid self region)
    /\ resolve_from (region :: rest) self probes
       = resolve_from rest self' (probes ++ [probe_of self])%list.
Proof.
  intros Hp. cbn [_get_correct_cos_region_from]. rewrite Hp.
  destruct e; try (exists self; split; [left|]; reflexivity).
  destruct (String.eqb error_code "NoSuchBucket").
  - exists (failover get_appid self region). split; [right|]; reflexivity.
  - exists self. split; [left|]; reflexivity.
Qed.

Lemma resolution_step_no_such_bucket (region : string) (rest : list string)
    (self : TencentCosBucket) (probes : list Probe) :
  probe (length probes) (cos self) (full_name self)
  = Raise (CosServiceError "NoSuchBucket") ->
  resolve_from (region :: rest) self probes
  = resolve_from rest (failover get_appid self region)
      (probes ++ [probe_of self])%list.
Proof.
  intros Hp. cbn [_get_correct_cos_region_from]. rewrite Hp. reflexivity.
Qed.

Lemma resolution_probes_at_most (regions : list string) :
  forall self probes,
    length (snd (resolve_from regions self probes)) <= length probes + length regions.
Proof.
  induction regions as [|r rest IH]; intros self probes.
  - cbn. lia.
  - destruct (probe (length probes) (cos self) (full_name self)) as [[]|e] eqn:Hp.
    + rewrite (resolution_step_ok get_appid probe r rest self probes Hp).
      cbn [snd length]. rewrite length_app. cbn [length]. lia.
    + destruct (resolution_step_fail r rest self probes Hp) as (self' & _ & ->).
      specialize (IH self' (probes ++ [probe_of self])%list).
      rewrite length_app in IH. cbn [length] in IH |- *. lia.
Qed.

(** A property of handles that every change of identity keeps is kept by the
    whole loop, and every probe is made from a handle that has it. *)
Lemma resolution_invariant (P : TencentCosBucket -> Prop) (Q : Probe -> Prop)
    (regions : list string) :
  (forall s r, In r regions -> P s -> P (failover get_appid s r)) ->
  (forall s, P s -> Q (probe_of s)) ->
  forall self probes,
    P self -> Forall Q probes ->
    P (snd (fst (resolve_from regions self probes)))
    /\ Forall Q (snd (resolve_from regions self probes)).
Proof.
  intros Hfail HQ.
  induction regions as [|r rest IH]; intros self probes HP Hprobes.
  - cbn. auto.
  - assert (Hnext : Forall Q (probes ++ [probe_of self])).
    { apply Forall_app. split; [exact Hprobes|]. constructor; [auto|constructor]. }
    destruct (probe (length probes) (cos self) (full_name self)) as [[]|e] eqn:Hp.
    + rewrite (resolution_step_ok get_appid probe r rest self probes Hp).
      cbn [fst snd]. auto.
    + destruct (resolution_step_fail r rest self probes Hp) as (self' & Hs & ->).
      apply IH.
      * intros s r' Hin. apply Hfail. now right.
      * destruct Hs as [-> | ->]; [exact HP|]. apply Hfail; [now left|exact HP].
      * exact Hnext.
Qed.

(** The trace of a loop: the probes before the last all failed; a region is
    returned exactly when the last probe succeeded, and it is the candidate
    at the position of that probe; otherwise every candidate was visited. *)
Lemma resolution_trace (regions : list string) :
  forall self probes,
    (forall i p, nth_error probes i = Some p -> ~ probe_succeeded probe i p) ->
    let '(r, _, probes') := resolve_from regions self probes in
    match r with
    | Some x =>
        exists k p,
          nth_error regions k = Some x
          /\ length probes' = length probes + S k
          /\ nth_error probes' (length probes + k) = Some p
          /\ probe_succeeded probe (length probes + k) p
          /\ (forall i q, i < length probes + k -> nth_error probes' i = Some q ->
                          ~ probe_succeeded probe i q)
    | None =>
        length probes' = length probes + length regions
        /\ (forall i q, nth_error probes' i = Some q -> ~ probe_succeeded probe i q)
    end.
Proof.
  induction regions as [|r rest IH]; intros self probes Hfailed.
  - cbn. split; [lia|exact Hfailed].
  - destruct (probe (length probes) (cos self) (full_name self)) as [[]|e] eqn:Hp.
    + rewrite (resolution_step_ok get_appid probe r rest self probes Hp).
      exists 0, (probe_of self). rewrite Nat.add_0_r.
      repeat split.
      * rewrite length_app. cbn [length]. lia.
      * rewrite nth_error_app2 by lia. now rewrite Nat.sub_diag.
      * exact Hp.
      * intros i q Hi Hq. rewrite nth_error_app1 in Hq by exact Hi.
        now apply Hfailed.
    + destruct (resolution_step_fail r rest self probes Hp) as (self' & _ & ->).
      assert (Hfailed' : forall i p,
                 nth_error (probes ++ [probe_of self]) i = Some p ->
                 ~ probe_succeeded probe i p).
      { intros i p Hi.
        destruct (Nat.lt_ge_cases i (length probes)) as [Hlt|Hge].
        - rewrite nth_error_app1 in Hi by exact Hlt. now apply Hfailed.
        - rewrite nth_error_app2 in Hi by exact Hge.
          destruct (i - length probes) as [|d] eqn:Hd.
          + injection Hi as <-. assert (i = length probes) as -> by lia.
            unfold probe_succeeded. cbn [probe_cos probe_bucket].
            rewrite Hp. discriminate.
          + destruct d; discriminate Hi. }
      specialize (IH self' (probes ++ [probe_of self])%list Hfailed').
      destruct (resolve_from rest self' (probes ++ [probe_of self]))
        as [[res self''] probes'].
      rewrite length_app in IH. cbn [length] in IH.
      destruct res as [x|].
      * destruct IH as (k & p & Hk & Hlen & Hnth & Hok & Hbefore).
        exists (S k), p. cbn [nth_error].
        replace (length probes + S k) with (length probes + 1 + k) by lia.
        repeat split; try assumption. lia.
      * destruct IH as (Hlen & Hall). cbn [length]. split; [lia|exact Hall].
Qed.

End ResolutionTraces.

(** X1: whatever the provider answers, constructing a handle makes at least
    one probe and at most seven, one per candidate region. *)
Theorem construction_probes_between_one_and_seven :
  forall (get_appid : Cos.TencentCos -> string)
         (probe : nat -> Cos.TencentCos -> string -> Result unit)
         (c0 : Cos.TencentCos) (bucket_name : string),
    1 <= length (snd (__init__ get_appid probe c0 bucket_name)) <= 7.
Proof.
  intros get_appid probe c0 bucket_name.
  unfold __init__, _get_correct_cos_region.
  set (self0 := set_base_url _ _).
  pose proof (resolution_probes_at_most get_appid probe REGIONS self0 []) as Hmax.
  destruct (resolution_probes_first get_appid probe "nanjing" (tl REGIONS) self0 [])
    as [more Hmin].
  change ("nanjing" :: tl REGIONS) with REGIONS in Hmin.
  destruct (_get_correct_cos_region_from get_appid probe REGIONS self0 [])
    as [[r self'] probes].
  unfold REGIONS in Hmax.
  cbn [snd length app Nat.add] in *. subst probes. cbn [length] in *. lia.
Qed.

(** X2: a constructed handle has a region exactly when its last probe
    succeeded; every earlier probe failed, and the region reported is the
    candidate whose position is the number of probes made.  A handle without a
    region made seven probes, all of which failed. *)
Theorem construction_region_is_candidate_of_last_probe :
  forall (get_appid : Cos.TencentCos -> string)
         (probe : nat -> Cos.TencentCos -> string -> Result unit)
         (c0 : Cos.TencentCos) (bucket_name : string),
    let '(h, probes) := __init__ get_appid probe c0 bucket_name in
    match region h with
    | Some x =>
        nth_error REGIONS (length probes - 1) = Some x
        /\ (exists p, nth_error probes (length probes - 1) = Some p
                      /\ probe_succeeded probe (length probes - 1) p)
        /\ (forall i q, i < length probes - 1 -> nth_error probes i = Some q ->
                        ~ probe_succeeded probe i q)
    | None =>
        length probes = 7
        /\ (forall i q, nth_error probes i = Some q -> ~ probe_succeeded probe i q)
    end.
Proof.
  intros get_appid probe c0 bucket_name.
  unfold __init__, _get_correct_cos_region.
  set (self0 := set_base_url _ _).
  assert (Hnil : forall i p, nth_error (@nil Probe) i = Some p ->
                             ~ probe_succeeded probe i p).
  { intros i p Hi. destruct i; discriminate Hi. }
  pose proof (@resolution_trace get_appid probe REGIONS self0 [] Hnil) as H.
  destruct (_get_correct_cos_region_from get_appid probe REGIONS self0 [])
    as [[r self'] probes].
  cbn [region set_region].
  destruct r as [x|].
  - destruct H as (k & p & Hk & Hlen & Hnth & Hok & Hbefore).
    cbn [length Nat.add] in *.
    replace (length probes - 1) with k by lia.
    repeat split; try assumption. exists p. auto.
  - exact H.
Qed.

(** X3: resolution never changes the credentials or the short name: the
    handle's final identity carries the caller's secret id and key, and its
    region is the caller's or [ap-] followed by one of the candidates. *)
Theorem construction_keeps_credentials :
  forall (get_appid : Cos.TencentCos -> string)
         (probe : nat -> Cos.TencentCos -> string -> Result unit)
         (c0 : Cos.TencentCos) (bucket_name : string),
    let h := fst (__init__ get_appid probe c0 bucket_name) in
    Cos.secret_id (cos h) = Cos.secret_id c0
    /\ Cos.secret_key (cos h) = Cos.secret_key c0
    /\ (Cos.region (cos h) = Cos.region c0
        \/ exists r, In r REGIONS /\ Cos.region (cos h) = "ap-" ++ r).
Proof.
  intros get_appid probe c0 bucket_name.
  unfold __init__, _get_correct_cos_region.
  set (self0 := set_base_url _ _).
  set (P := fun s : TencentCosBucket =>
              Cos.secret_id (cos s) = Cos.secret_id c0
              /\ Cos.secret_key (cos s) = Cos.secret_key c0
              /\ (Cos.region (cos s) = Cos.region c0
                  \/ exists r, In r REGIONS /\ Cos.region (cos s) = "ap-" ++ r)).
  assert (H : P (snd (fst (_get_correct_cos_region_from get_appid probe
                             REGIONS self0 [])))).
  { apply (@resolution_invariant get_appid probe P (fun _ => True) REGIONS).
    - intros s r Hin (Hid & Hkey & _). unfold P, failover.
      cbn [cos set_cos set_full_name Cos.secret_id Cos.secret_key Cos.region].
      repeat split; try assumption. right. exists r. auto.
    - trivial.
    - unfold P. subst self0. cbn [cos set_base_url]. auto.
    - constructor. }
  destruct (_get_correct_cos_region_from get_appid probe REGIONS self0 [])
    as [[r self'] probes].
  exact H.
Qed.

(** X4: every probe made during construction asks for the bucket name that
    belongs to the identity it is made with: the short name, a dash and that
    identity's account id. *)
Theorem construction_probes_are_consistent :
  forall (get_appid : Cos.TencentCos -> string)
         (probe : nat -> Cos.TencentCos -> string -> Result unit)
         (c0 : Cos.TencentCos) (bucket_name : string),
    Forall (fun p => probe_bucket p = bucket_name ++ "-" ++ get_appid (probe_cos p))
           (snd (__init__ get_appid probe c0 bucket_name)).
Proof.
  intros get_appid probe c0 bucket_name.
  unfold __init__, _get_correct_cos_region.
  set (self0 := set_base_url _ _).
  set (P := fun s : TencentCosBucket =>
              name s = bucket_name
              /\ full_name s = bucket_name ++ "-" ++ get_appid (cos s)).
  pose proof (@resolution_invariant get_appid probe P
                (fun p => probe_bucket p = bucket_name ++ "-" ++ get_appid (probe_cos p))
                REGIONS) as H.
  specialize (H (fun s r _ HP =>
                   conj (proj1 HP)
                        (f_equal (fun n => n ++ "-" ++ get_appid (cos (failover get_appid s r)))
                                 (proj1 HP)))
                (fun s HP => proj2 HP) self0 [] (conj eq_refl eq_refl) (Forall_nil _)).
  destruct (_get_correct_cos_region_from get_appid probe REGIONS self0 [])
    as [[r self'] probes].
  exact (proj2 H).
Qed.

(** X5: when the bucket exists in no region, construction probes seven times,
    first with the caller's identity and then with one identity per candidate
    from nanjing to chongqing, and ends without a region, its identity pinned
    to the last candidate, hongkong, which was never probed. *)
Theorem construction_fails_when_bucket_is_nowhere :
  forall (get_appid : Cos.TencentCos -> string) (c0 : Cos.TencentCos)
         (bucket_name : string),
    let '(h, probes) := __init__ get_appid nowhere c0 bucket_name in
    region h = None
    /\ map (fun p => Cos.region (probe_cos p)) probes
       = [Cos.region c0; "ap-nanjing"; "ap-chengdu"; "ap-beijing"; "ap-guangzhou";
          "ap-shanghai"; "ap-chongqing"]
    /\ Cos.region (cos h) = "ap-hongkong"
    /\ full_name h = bucket_name ++ "-" ++ get_appid (cos h).
Proof.
  intros get_appid c0 bucket_name.
  unfold __init__, _get_correct_cos_region, REGIONS.
  do 7 (rewrite (resolution_step_no_such_bucket get_appid nowhere) by reflexivity).
  cbn [_get_correct_cos_region_from].
  repeat split.
Qed.

(** ** More on strings and paths *)

Unset Implicit Arguments.

Lemma drop_length_app (a b : string) : PyStr.drop (String.length a) (a ++ b) = b.
Proof.
  induction a as [|x a IH]; cbn [String.length PyStr.drop append].
  - destruct b; reflexivity.
  - exact IH.
Qed.

Lemma endswith_app (a b : string) : PyStr.endswith (a ++ b) b = true.
Proof.
  unfold PyStr.endswith. rewrite str_length_app.
  replace (String.length a + String.length b - String.length b)
    with (String.length a) by lia.
  rewrite drop_length_app, String.eqb_refl, andb_true_r.
  apply Nat.leb_le. lia.
Qed.

Lemma init_app_char (a : string) (c : ascii) : PyStr.init (a ++ String c "") = a.
Proof.
  induction a as [|x a IH]; [reflexivity|].
  cbn [append PyStr.init]. rewrite IH.
  destruct a; reflexivity.
Qed.

Lemma endswith_cons (x y : ascii) (s p : string) :
  String.length p = 1 ->
  PyStr.endswith (String x (String y s)) p = PyStr.endswith (String y s) p.
Proof.
  intros Hp. unfold PyStr.endswith. rewrite Hp.
  cbn [String.length].
  replace (S (S (String.length s)) - 1) with (S (String.length s - 0)) by lia.
  replace (S (String.length s) - 1) with (String.length s - 0) by lia.
  reflexivity.
Qed.

Lemma endswith_char_init (s : string) (c : ascii) :
  PyStr.endswith s (String c "") = true -> PyStr.init s ++ String c "" = s.
Proof.
  induction s as [|x s IH]; [discriminate|].
  destruct s as [|y s].
  - unfold PyStr.endswith. cbn. intros H.
    destruct (Ascii.eqb_spec x c) as [->|]; [reflexivity|discriminate].
  - rewrite endswith_cons by reflexivity. intros H.
    change (PyStr.init (String x (String y s)))
      with (String x (PyStr.init (String y s))).
    change (String x (PyStr.init (String y s)) ++ String c "")
      with (String x (PyStr.init (String y s) ++ String c "")).
    now rewrite (IH H).
Qed.

Lemma mem_In (x : string) (xs : list string) : PyStr.mem x xs = true <-> In x xs.
Proof.
  unfold PyStr.mem. rewrite existsb_exists. split.
  - intros (y & Hy & E). apply String.eqb_eq in E. now subst.
  - intros H. exists x. split; [exact H|apply String.eqb_refl].
Qed.

Lemma lookup_In (Key : string) (objs : list (string * CosObject)) :
  Client.lookup Key objs <> None <-> In Key (map fst objs).
Proof.
  rewrite <- mem_In, mem_keys_lookup.
  destruct (Client.lookup Key objs); split; congruence.
Qed.

Lemma contains_char_app (c : ascii) (a b : string) :
  PyStr.contains_char c (a ++ b)
  = PyStr.contains_char c a || PyStr.contains_char c b.
Proof.
  induction a as [|x a IH]; cbn [append PyStr.contains_char]; [reflexivity|].
  now rewrite IH, orb_assoc.
Qed.

Lemma prefix_contains (c : ascii) (p s : string) :
  String.prefix p s = true ->
  PyStr.contains_char c p = true -> PyStr.contains_char c s = true.
Proof.
  revert s. induction p as [|x p IH]; intros s Hp Hc; [discriminate Hc|].
  destruct s as [|y s]; [discriminate Hp|].
  cbn [String.prefix] in Hp.
  destruct (ascii_dec x y) as [->|]; [|discriminate Hp].
  cbn [PyStr.contains_char] in Hc |- *.
  destruct (Ascii.eqb y c); [reflexivity|]. cbn [orb] in *. now apply IH.
Qed.

(** A string that lacks a character of [old] holds no occurrence of it. *)
Lemma replace_without_occurrence (c : ascii) (old new s : string) :
  PyStr.contains_char c old = true ->
  PyStr.contains_char c s = false ->
  PyStr.replace old new s = s.
Proof.
  intros Hold.
  assert (Hne : old <> "") by (intros ->; discriminate Hold).
  induction s as [|x s IH]; intros Hs.
  - destruct old; [now elim Hne|reflexivity].
  - rewrite replace_no_occurrence; [| exact Hne |].
    + cbn [PyStr.contains_char] in Hs. apply orb_false_iff in Hs as [_ Hs].
      now rewrite IH.
    + destruct (String.prefix old (String x s)) eqn:Hp; [|reflexivity].
      rewrite (prefix_contains c _ _ Hp Hold) in Hs. discriminate Hs.
Qed.

(** The parts of a split hold no separator. *)
Lemma split_parts_no_sep (sep : ascii) (s : string) :
  Forall (fun part => PyStr.contains_char sep part = false) (PyStr.split sep s).
Proof.
  induction s as [|c s IH]; cbn [PyStr.split]; [repeat constructor|].
  destruct (Ascii.eqb c sep) eqn:E.
  - constructor; [reflexivity|exact IH].
  - destruct (PyStr.split sep s) as [|h t].
    + repeat constructor. cbn. now rewrite E.
    + inversion IH as [|? ? Hh Ht]; subst.
      constructor; [|exact Ht]. cbn [PyStr.contains_char]. now rewrite E, Hh.
Qed.

Lemma name_no_slash (p : string) : PyStr.contains_char slash (OsPath.name p) = false.
Proof.
  unfold OsPath.name.
  pose proof (split_parts_no_sep slash p) as H.
  induction (PyStr.split slash p) as [|h t IH]; [reflexivity|].
  inversion H as [|? ? Hh Ht]; subst.
  cbn [filter].
  destruct (negb (String.eqb h "") && negb (String.eqb h ".")); [|now apply IH].
  cbn [last].
  destruct (filter _ t) eqn:Ef; [exact Hh|].
  specialize (IH Ht). exact IH.
Qed.

(** Two ways of cutting a string at a [/] that both leave a leaf without
    [/] are the same cut. *)
Lemma last_slash_unique (d d' l l' : string) :
  PyStr.contains_char slash l = false ->
  PyStr.contains_char slash l' = false ->
  d ++ "/" ++ l = d' ++ "/" ++ l' -> d = d' /\ l = l'.
Proof.
  intros Hl Hl'. revert d'.
  induction d as [|x d IH]; intros [|x' d'] H; cbn [append] in H.
  - injection H as H. auto.
  - injection H as Hx H. subst l.
    rewrite contains_char_app in Hl. cbn in Hl.
    rewrite orb_true_r in Hl. discriminate Hl.
  - injection H as Hx H. subst l'.
    rewrite contains_char_app in Hl'. cbn in Hl'.
    rewrite orb_true_r in Hl'. discriminate Hl'.
  - injection H as Hx H. subst x'. destruct (IH d' H) as [-> ->]. auto.
Qed.

Lemma parse_decomposes (p : string) :
  PyStr.contains_char slash p = true ->
  p = fst (_parse_object_path_name p) ++ "/" ++ snd (_parse_object_path_name p)
  /\ PyStr.contains_char slash (snd (_parse_object_path_name p)) = false.
Proof.
  intros Hp. unfold _parse_object_path_name. rewrite Hp. cbn [negb fst snd].
  split; [|apply split_last_no_sep].
  unfold PyStr.join.
  rewrite (join_removelast_last "/" (PyStr.split slash p)).
  - symmetry. apply (join_split slash p).
  - apply split_length_sep, Hp.
Qed.

Lemma parse_slash_join (d l : string) :
  PyStr.contains_char slash l = false ->
  fst (_parse_object_path_name (d ++ "/" ++ l)) = d
  /\ snd (_parse_object_path_name (d ++ "/" ++ l)) = l.
Proof.
  intros Hl.
  assert (Hp : PyStr.contains_char slash (d ++ "/" ++ l) = true).
  { rewrite contains_char_app. cbn. now rewrite orb_true_r. }
  destruct (parse_decomposes _ Hp) as [Heq Hleaf].
  destruct (last_slash_unique d _ l _ Hl Hleaf Heq) as [Hd Hlf]. auto.
Qed.

(** X6: [_parse_object_path_name] undoes joining with a [/]: for a leaf
    without [/], the path made of any directory, a [/] and the leaf parses
    back to that directory and that leaf. *)
Theorem parse_inverts_slash_join :
  forall d l : string,
    PyStr.contains_char slash l = false ->
    _parse_object_path_name (d ++ "/" ++ l) = (d, l).
Proof.
  intros d l Hl.
  assert (Hp : PyStr.contains_char slash (d ++ "/" ++ l) = true).
  { rewrite contains_char_app. cbn. now rewrite orb_true_r. }
  destruct (parse_decomposes _ Hp) as [Heq Hleaf].
  destruct (_parse_object_path_name (d ++ "/" ++ l)) as [d' l'].
  cbn [fst snd] in *.
  destruct (last_slash_unique d d' l l' Hl Hleaf Heq) as [-> ->]. reflexivity.
Qed.

Lemma parse_inverts_slash_join_reports :
  _parse_object_path_name ("a/reports" ++ "/" ++ "x.csv") = ("a/reports", "x.csv").
Proof.
  exact (parse_inverts_slash_join "a/reports" "x.csv" eq_refl).
Defined.

(** The leaf parsed from [os.path.join(dir, leaf)] is [leaf]. *)
Lemma parse_of_join_leaf (dir leaf : string) :
  PyStr.contains_char slash leaf = false ->
  snd (_parse_object_path_name (OsPath.join dir leaf)) = leaf.
Proof.
  intros Hl. unfold OsPath.join.
  destruct (PyStr.startswith leaf "/") eqn:Hs.
  - unfold PyStr.startswith in Hs.
    rewrite (prefix_contains slash "/" leaf Hs eq_refl) in Hl. discriminate Hl.
  - destruct (String.eqb dir "") eqn:Hd; cbn [orb].
    + apply String.eqb_eq in Hd. subst dir. cbn [append].
      unfold _parse_object_path_name. now rewrite Hl.
    + destruct (PyStr.endswith dir "/") eqn:He.
      * apply endswith_char_init in He. rewrite <- He, str_app_assoc.
        now apply parse_slash_join.
      * now apply parse_slash_join.
Qed.

(** ** Listing *)

Lemma list_all_dirs_spec (self : TencentCosBucket) (w : Remote) :
  list_all_dirs self w
  = (Ok (map PyStr.init
           (filter (fun ob => PyStr.endswith ob "/") (map fst (objects w)))),
     logged (ListObjects (full_name self) "") w).
Proof.
  unfold list_all_dirs, bind. rewrite list_objects_root. reflexivity.
Qed.

Lemma list_all_files_spec (self : TencentCosBucket) (w : Remote) :
  list_all_files self w
  = (Ok (filter (fun ob => negb (PyStr.endswith ob "/")) (map fst (objects w))),
     logged (ListObjects (full_name self) "") w).
Proof.
  unfold list_all_files, bind. rewrite list_objects_root. reflexivity.
Qed.

Lemma dirs_In (keys : list string) (d : string) :
  In d (map PyStr.init (filter (fun ob => PyStr.endswith ob "/") keys))
  <-> In (d ++ "/") keys.
Proof.
  rewrite in_map_iff. split.
  - intros (k & Hk & Hin). apply filter_In in Hin as [Hin He].
    apply endswith_char_init in He. rewrite Hk in He. now rewrite He.
  - intros Hin. exists (d ++ "/"). split; [apply init_app_char|].
    apply filter_In. split; [exact Hin|apply endswith_app].
Qed.

Lemma mem_dirs (objs : list (string * CosObject)) (d : string) :
  PyStr.mem d (map PyStr.init
                 (filter (fun ob => PyStr.endswith ob "/") (map fst objs)))
  = match Client.lookup (d ++ "/") objs with Some _ => true | None => false end.
Proof.
  rewrite <- mem_keys_lookup.
  apply eq_true_iff_eq. rewrite !mem_In. apply dirs_In.
Qed.

(** X7: [list_all_dirs] makes one listing call and returns exactly the
    directories that have a marker object: a name [d] is listed if and only
    if the bucket holds the key [d/]. *)
Theorem list_all_dirs_lists_marked_directories :
  forall (self : TencentCosBucket) (w : Remote),
    exists dirs,
      list_all_dirs self w = (Ok dirs, logged (ListObjects (full_name self) "") w)
      /\ forall d, In d dirs <-> In (d ++ "/") (map fst (objects w)).
Proof.
  intros self w. eexists. split; [apply list_all_dirs_spec|].
  intros d. apply dirs_In.
Qed.

Lemma filter_partition_permutation (A : Type) (f : A -> bool) (l : list A) :
  Permutation l (filter (fun x => negb (f x)) l ++ filter f l).
Proof.
  induction l as [|x l IH]; cbn [filter]; [constructor|].
  destruct (f x); cbn [negb].
  - apply Permutation_cons_app. exact IH.
  - cbn [app]. constructor. exact IH.
Qed.

Lemma restore_slash (keys : list string) :
  map (fun d => d ++ "/")
      (map PyStr.init (filter (fun ob => PyStr.endswith ob "/") keys))
  = filter (fun ob => PyStr.endswith ob "/") keys.
Proof.
  induction keys as [|k keys IH]; [reflexivity|].
  cbn [filter]. destruct (PyStr.endswith k "/") eqn:E; [|exact IH].
  cbn [map]. rewrite IH. f_equal. apply endswith_char_init, E.
Qed.

(** X8: the files and the directories split the bucket: every key is listed
    once, either by [list_all_files] as it is, or by [list_all_dirs] without
    its final [/]. *)
Theorem files_and_dirs_partition_the_keys :
  forall (self : TencentCosBucket) (w : Remote),
    exists files dirs,
      fst (list_all_files self w) = Ok files
      /\ fst (list_all_dirs self w) = Ok dirs
      /\ Permutation (map fst (objects w)) (files ++ map (fun d => d ++ "/") dirs)
      /\ Forall (fun f => PyStr.endswith f "/" = false) files.
Proof.
  intros self w. do 2 eexists.
  rewrite list_all_files_spec, list_all_dirs_spec. cbn [fst].
  split; [reflexivity|]. split; [reflexivity|]. split.
  - rewrite restore_slash. apply filter_partition_permutation.
  - apply Forall_forall. intros f Hf. apply filter_In in Hf as [_ Hf].
    now apply negb_true_iff.
Qed.

Lemma not_root_cons (c : ascii) (d : string) :
  d <> "" -> PyStr.mem (String c d) [""; "/"] = false.
Proof.
  intros Hd. destruct d; [now elim Hd|].
  cbn. destruct (Ascii.eqb c "/"); reflexivity.
Qed.

Lemma startswith_slash_head (c : ascii) (d : string) :
  PyStr.startswith (String c d) "/" = false -> c <> "/"%char.
Proof.
  intros H ->. unfold PyStr.startswith in H. cbn [String.prefix] in H.
  destruct (ascii_dec "/" "/") as [_|N]; [|now elim N].
  rewrite prefix_nil in H. discriminate H.
Qed.

Lemma not_root_app (d s : string) :
  d <> "" -> PyStr.startswith d "/" = false -> PyStr.mem (d ++ s) [""; "/"] = false.
Proof.
  intros Hd Hs. destruct d as [|c d]; [now elim Hd|].
  apply startswith_slash_head in Hs. apply Ascii.eqb_neq in Hs.
  cbn [append]. unfold PyStr.mem. cbn [existsb String.eqb orb].
  now rewrite Hs.
Qed.

Lemma startswith_app_false (d s : string) :
  d <> "" -> PyStr.startswith d "/" = false -> PyStr.startswith (d ++ s) "/" = false.
Proof.
  intros Hd Hs. destruct d as [|c d]; [now elim Hd|].
  apply startswith_slash_head in Hs.
  unfold PyStr.startswith. cbn [append String.prefix].
  destruct (ascii_dec "/" c) as [E|]; [now elim Hs|reflexivity].
Qed.

(** [list_dir_files] on a plain directory name. *)
Lemma list_dir_files_plain (self : TencentCosBucket) (d : string) :
  plain_dir d ->
  list_dir_files self d
  = (dirs <- list_all_dirs self ;;
     if negb (PyStr.mem d dirs)
     then raise (CosBucketDirNotFoundError ("Bucket dir " ++ (d ++ "/") ++ " not found."))
     else _list_objects self (d ++ "/")).
Proof.
  intros (Hd & Hs & He). unfold list_dir_files.
  replace (PyStr.mem d [""; "/"]) with false.
  - cbn [negb]. rewrite Hs, He. cbn [negb]. rewrite init_app_char. reflexivity.
  - symmetry. rewrite <- (str_app_nil_r d). now apply not_root_app.
Qed.

(** X9: a directory may be named with or without a leading [/] and with or
    without a final [/]: the four spellings give the same listing, the same
    calls and the same error. *)
Theorem list_dir_files_ignores_outer_slashes :
  forall (self : TencentCosBucket) (d : string),
    plain_dir d ->
    list_dir_files self ("/" ++ d) = list_dir_files self d
    /\ list_dir_files self (d ++ "/") = list_dir_files self d
    /\ list_dir_files self ("/" ++ d ++ "/") = list_dir_files self d.
Proof.
  intros self d Hplain. rewrite (list_dir_files_plain self d Hplain).
  destruct Hplain as (Hd & Hs & He).
  unfold list_dir_files. repeat split.
  - cbn [append]. rewrite (not_root_cons "/" d Hd). cbn [negb].
    unfold PyStr.startswith, PyStr.tail. cbn [String.prefix PyStr.drop].
    destruct (ascii_dec "/" "/") as [_|N]; [|now elim N].
    rewrite prefix_nil, He. cbn [negb]. rewrite init_app_char. reflexivity.
  - rewrite (not_root_app d "/" Hd Hs). cbn [negb].
    rewrite (startswith_app_false d "/" Hd Hs), endswith_app. cbn [negb].
    rewrite init_app_char. reflexivity.
  - cbn [append].
    rewrite not_root_cons by (destruct d; [now elim Hd|discriminate]).
    cbn [negb].
    unfold PyStr.startswith, PyStr.tail. cbn [String.prefix PyStr.drop].
    destruct (ascii_dec "/" "/") as [_|N]; [|now elim N].
    rewrite prefix_nil, endswith_app. cbn [negb].
    rewrite init_app_char. reflexivity.
Qed.

Lemma list_dir_files_ignores_outer_slashes_reports :
  plain_dir "reports"
  /\ list_dir_files example_handle ("/" ++ "reports") = list_dir_files example_handle "reports"
  /\ list_dir_files example_handle ("reports" ++ "/") = list_dir_files example_handle "reports"
  /\ list_dir_files example_handle ("/" ++ "reports" ++ "/")
     = list_dir_files example_handle "reports".
Proof.
  assert (Hplain : plain_dir "reports").
  { repeat split. discriminate. }
  split; [exact Hplain|].
  exact (list_dir_files_ignores_outer_slashes example_handle "reports" Hplain).
Defined.

Lemma list_dir_files_trailing_slash (self : TencentCosBucket) (d : string) :
  plain_dir d -> list_dir_files self (d ++ "/") = list_dir_files self d.
Proof.
  intros Hplain. rewrite (list_dir_files_plain self d Hplain).
  destruct Hplain as (Hd & Hs & He). unfold list_dir_files.
  rewrite (not_root_app d "/" Hd Hs). cbn [negb].
  rewrite (startswith_app_false d "/" Hd Hs), endswith_app. cbn [negb].
  rewrite init_app_char. reflexivity.
Qed.

Lemma list_dir_files_unknown (self : TencentCosBucket) (w : Remote) (d : string) :
  plain_dir d ->
  Client.lookup (d ++ "/") (objects w) = None ->
  list_dir_files self d w
  = (Raise (CosBucketDirNotFoundError ("Bucket dir " ++ (d ++ "/") ++ " not found.")),
     logged (ListObjects (full_name self) "") w).
Proof.
  intros Hplain Hnone. rewrite (list_dir_files_plain self d Hplain).
  unfold bind. rewrite list_all_dirs_spec, mem_dirs, Hnone. reflexivity.
Qed.

Lemma list_dir_files_known (self : TencentCosBucket) (w : Remote) (d : string) :
  plain_dir d ->
  Client.lookup (d ++ "/") (objects w) <> None ->
  list_dir_files self d w
  = (Ok (map (fun key => PyStr.replace (d ++ "/") "" key)
             (filter (String.prefix (d ++ "/")) (map fst (objects w)))),
     logged (ListObjects (full_name self) (d ++ "/"))
       (logged (ListObjects (full_name self) "") w)).
Proof.
  intros Hplain Hsome. rewrite (list_dir_files_plain self d Hplain).
  unfold bind. rewrite list_all_dirs_spec, mem_dirs.
  destruct (Client.lookup (d ++ "/") (objects w)); [|now elim Hsome].
  cbn [negb]. rewrite list_objects_spec. reflexivity.
Qed.

(** An object [d/l] whose leaf has no [/] is listed under [d/] as [l]. *)
Lemma leaf_listed (keys : list string) (d l : string) :
  PyStr.contains_char slash l = false ->
  In (d ++ "/" ++ l) keys ->
  In l (map (fun key => PyStr.replace (d ++ "/") "" key)
            (filter (String.prefix (d ++ "/")) keys)).
Proof.
  intros Hl Hin. apply in_map_iff. exists ((d ++ "/") ++ l).
  assert (Hp : d ++ "/" <> "") by (destruct d; discriminate).
  split.
  - rewrite (@replace_at_occurrence (d ++ "/") "" l Hp). cbn [append].
    apply (replace_without_occurrence slash); [|exact Hl].
    rewrite contains_char_app. cbn. now rewrite orb_true_r.
  - apply filter_In. rewrite str_app_assoc. split; [exact Hin|].
    rewrite <- str_app_assoc. apply prefix_app.
Qed.

(** X10: listing a directory that has no marker object fails with
    [CosBucketDirNotFoundError], naming the normalised directory, after the
    single listing call of the check; nothing in the bucket changes. *)
Theorem list_dir_files_unknown_directory_raises :
  forall (self : TencentCosBucket) (w : Remote) (d : string),
    plain_dir d ->
    Client.lookup (d ++ "/") (objects w) = None ->
    list_dir_files self d w
    = (Raise (CosBucketDirNotFoundError ("Bucket dir " ++ (d ++ "/") ++ " not found.")),
       logged (ListObjects (full_name self) "") w).
Proof.
  intros self w d Hplain Hnone.
  rewrite (list_dir_files_plain self d Hplain).
  unfold bind. rewrite list_all_dirs_spec, mem_dirs, Hnone.
  reflexivity.
Qed.

Lemma list_dir_files_unknown_directory_raises_photos :
  list_dir_files example_handle "photos" reports_bucket
  = (Raise (CosBucketDirNotFoundError
              ("Bucket dir " ++ ("photos" ++ "/") ++ " not found.")),
     logged (ListObjects (full_name example_handle) "") reports_bucket).
Proof.
  apply list_dir_files_unknown_directory_raises.
  - repeat split. discriminate.
  - reflexivity.
Defined.

(** X11: listing a directory that has its marker makes two listing calls
    and returns the names under it: the marker itself comes back as the empty
    name, and every object [d/l] whose leaf [l] has no [/] comes back as
    [l]. *)
Theorem list_dir_files_lists_leaf_names :
  forall (self : TencentCosBucket) (w : Remote) (d : string),
    plain_dir d ->
    Client.lookup (d ++ "/") (objects w) <> None ->
    exists names,
      list_dir_files self d w
      = (Ok names,
         logged (ListObjects (full_name self) (d ++ "/"))
           (logged (ListObjects (full_name self) "") w))
      /\ In "" names
      /\ forall l, PyStr.contains_char slash l = false ->
                   In (d ++ "/" ++ l) (map fst (objects w)) -> In l names.
Proof.
  intros self w d Hplain Hsome. eexists.
  split; [apply (list_dir_files_known self w d Hplain Hsome)|].
  split.
  - apply (leaf_listed (map fst (objects w)) d "" eq_refl).
    cbn [append]. now apply lookup_In.
  - intros l Hl Hin. now apply leaf_listed.
Qed.

Lemma list_dir_files_lists_leaf_names_reports :
  exists names,
    list_dir_files example_handle "reports" reports_bucket
    = (Ok names,
       logged (ListObjects (full_name example_handle) ("reports" ++ "/"))
         (logged (ListObjects (full_name example_handle) "") reports_bucket))
    /\ In "" names
    /\ forall l, PyStr.contains_char slash l = false ->
                 In ("reports" ++ "/" ++ l) (map fst (objects reports_bucket)) ->
                 In l names.
Proof.
  apply list_dir_files_lists_leaf_names.
  - repeat split. discriminate.
  - discriminate.
Defined.

(** ** The bucket table *)

Lemma lookup_store_other (Key k : string) (o : CosObject)
    (objs : list (string * CosObject)) :
  k <> Key -> Client.lookup k (Client.store Key o objs) = Client.lookup k objs.
Proof.
  intros Hne. apply String.eqb_neq in Hne.
  induction objs as [|[k' o'] objs IH]; cbn [Client.store Client.lookup].
  - rewrite String.eqb_sym. now rewrite Hne.
  - destruct (String.eqb k' Key) eqn:E; cbn [Client.lookup].
    + apply String.eqb_eq in E. subst k'.
      rewrite (String.eqb_sym Key k). now rewrite Hne.
    + now rewrite IH.
Qed.

Lemma store_store (Key : string) (o : CosObject) (objs : list (string * CosObject)) :
  Client.store Key o (Client.store Key o objs) = Client.store Key o objs.
Proof.
  induction objs as [|[k' o'] objs IH]; cbn [Client.store].
  - now rewrite String.eqb_refl.
  - destruct (String.eqb k' Key) eqn:E; cbn [Client.store].
    + now rewrite String.eqb_refl.
    + now rewrite E, IH.
Qed.

Lemma store_keys (Key : string) (o : CosObject) (objs : list (string * CosObject)) :
  map fst (Client.store Key o objs)
  = if PyStr.mem Key (map fst objs) then map fst objs
    else (map fst objs ++ [Key])%list.
Proof.
  unfold PyStr.mem.
  induction objs as [|[k' o'] objs IH]; [reflexivity|].
  cbn [Client.store map fst existsb]. rewrite (String.eqb_sym Key k').
  destruct (String.eqb k' Key) eqn:E; cbn [orb map fst].
  - apply String.eqb_eq in E. now subst.
  - rewrite IH. destruct (existsb (String.eqb Key) (map fst objs)); reflexivity.
Qed.

Lemma store_keeps_keys_unique (Key : string) (o : CosObject)
    (objs : list (string * CosObject)) :
  NoDup (map fst objs) -> NoDup (map fst (Client.store Key o objs)).
Proof.
  intros Hnd. rewrite store_keys.
  destruct (PyStr.mem Key (map fst objs)) eqn:E; [exact Hnd|].
  apply NoDup_app; [exact Hnd|repeat constructor; intros []|].
  intros k Hk [<-|[]]. apply mem_In in Hk. congruence.
Qed.

Lemma lookup_remove_same (Key : string) (objs : list (string * CosObject)) :
  Client.lookup Key (Client.remove Key objs) = None.
Proof.
  unfold Client.remove.
  induction objs as [|[k o] objs IH]; [reflexivity|].
  cbn [filter fst]. destruct (String.eqb k Key) eqn:E; cbn [negb]; [exact IH|].
  cbn [Client.lookup]. now rewrite E.
Qed.

Lemma lookup_remove_other (Key k : string) (objs : list (string * CosObject)) :
  k <> Key -> Client.lookup k (Client.remove Key objs) = Client.lookup k objs.
Proof.
  intros Hne. unfold Client.remove.
  induction objs as [|[k' o] objs IH]; [reflexivity|].
  cbn [filter fst]. destruct (String.eqb k' Key) eqn:E; cbn [negb Client.lookup].
  - apply String.eqb_eq in E. subst k'.
    apply String.eqb_neq in Hne. rewrite (String.eqb_sym Key k).
    now rewrite Hne.
  - now rewrite IH.
Qed.

Lemma dirs_unique (keys : list string) :
  NoDup keys ->
  NoDup (map PyStr.init (filter (fun ob => PyStr.endswith ob "/") keys)).
Proof.
  induction keys as [|k keys IH]; intros Hnd; [constructor|].
  inversion Hnd as [|? ? Hk Hrest]; subst.
  cbn [filter]. destruct (PyStr.endswith k "/") eqn:E; [|now apply IH].
  cbn [map]. constructor; [|now apply IH].
  intros Hin. apply dirs_In in Hin.
  rewrite (endswith_char_init k "/" E) in Hin. contradiction.
Qed.

(** ** Creating directories *)

Lemma mkdir_key (put_fault : string -> option PyExc) (self : TencentCosBucket)
    (Key : string) (w : Remote) :
  PyStr.endswith Key "/" = true ->
  mkdir put_fault self Key w
  = match put_fault Key with
    | Some _ => (Ok false, logged (PutObject (full_name self) Key) w)
    | None =>
        (Ok true,
         {| objects := Client.store Key empty_object (objects w);
            calls := (calls w ++ [PutObject (full_name self) Key])%list |})
    end.
Proof.
  intros He. unfold mkdir. rewrite He. cbn [negb].
  unfold try_except, bind, Client.put_object, Client.record, bind, raise, ret.
  destruct (put_fault Key); reflexivity.
Qed.

Lemma mkdir_adds_slash (put_fault : string -> option PyExc) (self : TencentCosBucket)
    (d : string) :
  PyStr.endswith d "/" = false ->
  mkdir put_fault self d = mkdir put_fault self (d ++ "/").
Proof.
  intros He. unfold mkdir. rewrite He, endswith_app. reflexivity.
Qed.

(** X12: when the provider accepts the put, [mkdir] of a name without final
    [/] succeeds exactly as [mkdir] of the name with it: one put of an empty
    object at the key [d/], after which [d] is among [list_all_dirs] and every
    other key is as before. *)
Theorem mkdir_creates_the_marker :
  forall (put_fault : string -> option PyExc) (self : TencentCosBucket)
         (w : Remote) (d : string),
    PyStr.endswith d "/" = false ->
    put_fault (d ++ "/") = None ->
    exists w',
      mkdir put_fault self d w = (Ok true, w')
      /\ mkdir put_fault self (d ++ "/") w = (Ok true, w')
      /\ calls w' = (calls w ++ [PutObject (full_name self) (d ++ "/")])%list
      /\ Client.lookup (d ++ "/") (objects w') = Some {| Body := []; Metadata := [] |}
      /\ (forall k, k <> d ++ "/" ->
                    Client.lookup k (objects w') = Client.lookup k (objects w))
      /\ exists dirs, fst (list_all_dirs self w') = Ok dirs /\ In d dirs.
Proof.
  intros put_fault self w d He Hput.
  rewrite (mkdir_adds_slash put_fault self d He).
  rewrite (mkdir_key put_fault self (d ++ "/") w (endswith_app d "/")), Hput.
  eexists. split; [reflexivity|]. split; [reflexivity|].
  cbn [objects calls]. split; [reflexivity|]. split; [apply lookup_store_same|].
  split; [intros k Hk; now apply lookup_store_other|].
  eexists. rewrite list_all_dirs_spec. split; [reflexivity|].
  apply dirs_In. cbn [objects]. apply lookup_In.
  rewrite lookup_store_same. discriminate.
Qed.

Lemma mkdir_creates_the_marker_photos :
  exists w',
    mkdir no_fault example_handle "photos" reports_bucket = (Ok true, w')
    /\ mkdir no_fault example_handle ("photos" ++ "/") reports_bucket = (Ok true, w')
    /\ calls w' = (calls reports_bucket
                   ++ [PutObject (full_name example_handle) ("photos" ++ "/")])%list
    /\ Client.lookup ("photos" ++ "/") (objects w')
       = Some {| Body := []; Metadata := [] |}
    /\ (forall k, k <> "photos" ++ "/" ->
                  Client.lookup k (objects w') = Client.lookup k (objects reports_bucket))
    /\ exists dirs, fst (list_all_dirs example_handle w') = Ok dirs /\ In "photos" dirs.
Proof.
  apply mkdir_creates_the_marker; reflexivity.
Defined.

(** X13: [mkdir] is idempotent: in a bucket whose keys are unique, creating
    the same directory twice succeeds twice, the second time without changing
    any object, and the directory then appears exactly once in
    [list_all_dirs]. *)
Theorem mkdir_twice_lists_the_directory_once :
  forall (put_fault : string -> option PyExc) (self : TencentCosBucket)
         (w : Remote) (d : string),
    NoDup (map fst (objects w)) ->
    PyStr.endswith d "/" = false ->
    put_fault (d ++ "/") = None ->
    exists w1 w2 dirs,
      mkdir put_fault self d w = (Ok true, w1)
      /\ mkdir put_fault self d w1 = (Ok true, w2)
      /\ objects w2 = objects w1
      /\ fst (list_all_dirs self w2) = Ok dirs
      /\ count_occ string_dec dirs d = 1.
Proof.
  intros put_fault self w d Hnd He Hput.
  rewrite (mkdir_adds_slash put_fault self d He).
  rewrite (mkdir_key put_fault self (d ++ "/") w (endswith_app d "/")), Hput.
  do 3 eexists. split; [reflexivity|].
  rewrite (mkdir_key put_fault self (d ++ "/") _ (endswith_app d "/")), Hput.
  split; [reflexivity|]. cbn [objects].
  split; [apply store_store|].
  rewrite list_all_dirs_spec. split; [reflexivity|]. cbn [objects].
  rewrite store_store.
  apply NoDup_count_occ'.
  - apply dirs_unique, store_keeps_keys_unique, Hnd.
  - apply dirs_In, lookup_In. rewrite lookup_store_same. discriminate.
Qed.

Lemma mkdir_twice_lists_the_directory_once_photos :
  exists w1 w2 dirs,
    mkdir no_fault example_handle "photos" reports_bucket = (Ok true, w1)
    /\ mkdir no_fault example_handle "photos" w1 = (Ok true, w2)
    /\ objects w2 = objects w1
    /\ fst (list_all_dirs example_handle w2) = Ok dirs
    /\ count_occ string_dec dirs "photos" = 1.
Proof.
  apply mkdir_twice_lists_the_directory_once; [|reflexivity|reflexivity].
  repeat constructor; cbn [In]; intuition discriminate.
Defined.

(** X14: [mkdir] never raises: whatever the provider does it makes one put
    call and returns a flag, and when the flag is false no object of the
    bucket has changed. *)
Theorem mkdir_never_raises :
  forall (put_fault : string -> option PyExc) (self : TencentCosBucket)
         (w : Remote) (remote_dir_path : string),
    exists (ok : bool) (Key : string) (w' : Remote),
      mkdir put_fault self remote_dir_path w = (Ok ok, w')
      /\ PyStr.endswith Key "/" = true
      /\ calls w' = (calls w ++ [PutObject (full_name self) Key])%list
      /\ (ok = false -> objects w' = objects w)
      /\ (ok = true -> Client.lookup Key (objects w') <> None).
Proof.
  intros put_fault self w p.
  assert (Hkey : exists Key, PyStr.endswith Key "/" = true
                             /\ mkdir put_fault self p = mkdir put_fault self Key).
  { destruct (PyStr.endswith p "/") eqn:He.
    - exists p. auto.
    - exists (p ++ "/"). split; [apply endswith_app|now apply mkdir_adds_slash]. }
  destruct Hkey as (Key & He & ->).
  rewrite (mkdir_key put_fault self Key w He).
  destruct (put_fault Key).
  - exists false, Key. eexists. split; [reflexivity|].
    repeat split; try assumption. discriminate.
  - exists true, Key. eexists. split; [reflexivity|].
    repeat split; try assumption; try discriminate.
    intros _. cbn [objects]. rewrite lookup_store_same. discriminate.
Qed.

(** ** More on uploading *)

(** [_upload_object] once the local path is known to exist. *)
Lemma upload_after_listing (md5_hex : list byte -> string) (fs : FileSystem)
    (put_fault : string -> option PyExc) (self : TencentCosBucket) (w : Remote)
    (local_file_path remote_dir : string) (overwrite : bool) (node : FsNode) :
  fs local_file_path = Some node ->
  _upload_object md5_hex fs put_fault self local_file_path remote_dir overwrite w
  = let file_name := OsPath.name local_file_path in
    let w1 := logged (ListObjects (full_name self) "") w in
    if (match Client.lookup file_name (objects w) with Some _ => true | None => false end)
       && negb overwrite
    then (Ok (true, file_name ++ " already in " ++ name self ++ ", skipped!"), w1)
    else
      match node with
      | Directory =>
          (Ok (false, "[Errno 21] Is a directory: '" ++ local_file_path ++ "'"), w1)
      | RegularFile content =>
          let Key := OsPath.join remote_dir file_name in
          let w2 := logged (PutObject (full_name self) Key) w1 in
          match put_fault Key with
          | Some (CosServiceError code) => (Ok (false, code), w2)
          | Some e => (Ok (false, exc_str e), w2)
          | None =>
              (Ok (true, "SUCCESS"),
               {| objects :=
                    Client.store Key
                      {| Body := content;
                         Metadata := [("x-cos-meta-md5", md5_hex content)] |}
                      (objects w);
                  calls := calls w2 |})
          end
      end.
Proof.
  intros Hnode. cbv zeta.
  unfold _upload_object, Os.exists_. rewrite Hnode. cbn [negb].
  unfold bind at 1. rewrite list_objects_root, mem_keys_lookup.
  destruct ((match Client.lookup (OsPath.name local_file_path) (objects w) with
             | Some _ => true | None => false end) && negb overwrite);
    [reflexivity|].
  destruct node as [content|].
  - pose proof (@get_local_file_md5_spec md5_hex fs local_file_path content Hnode)
      as Hmd5.
    unfold try_except, bind, lift, Os.open_rb. rewrite Hnode, Hmd5.
    unfold Client.put_object, Client.record, bind, raise, ret.
    destruct (put_fault (OsPath.join remote_dir (OsPath.name local_file_path)))
      as [[]|]; reflexivity.
  - unfold try_except, bind, lift, Os.open_rb. rewrite Hnode. reflexivity.
Qed.

(** X15: an upload of a local path that does not exist fails before
    anything else is done: [_upload_object] returns false with the message
    that names the path, [upload_file] returns false, and no call is made to
    the provider. *)
Theorem upload_of_missing_local_path_makes_no_call :
  forall (md5_hex : list byte -> string) (fs : FileSystem)
         (put_fault : string -> option PyExc) (self : TencentCosBucket)
         (w : Remote) (local_file_path remote_dir : string) (overwrite : bool),
    fs local_file_path = None ->
    _upload_object md5_hex fs put_fault self local_file_path remote_dir overwrite w
    = (Ok (false, "local path: " ++ local_file_path ++ " doesnt exists"), w)
    /\ upload_file md5_hex fs put_fault self local_file_path remote_dir overwrite w
       = (Ok false, w).
Proof.
  intros md5_hex fs put_fault self w lp dir ow Hnone.
  assert (H : _upload_object md5_hex fs put_fault self lp dir ow w
              = (Ok (false, "local path: " ++ lp ++ " doesnt exists"), w)).
  { unfold _upload_object, Os.exists_. rewrite Hnone. reflexivity. }
  split; [exact H|].
  unfold upload_file, bind. rewrite H. reflexivity.
Qed.

Lemma upload_of_missing_local_path_makes_no_call_y :
  _upload_object toy_digest local_fs no_fault example_handle
    "local/y.csv" "reports" true reports_bucket
  = (Ok (false, "local path: " ++ "local/y.csv" ++ " doesnt exists"), reports_bucket)
  /\ upload_file toy_digest local_fs no_fault example_handle
       "local/y.csv" "reports" true reports_bucket
     = (Ok false, reports_bucket).
Proof.
  apply upload_of_missing_local_path_makes_no_call. reflexivity.
Defined.

(** X16: when the provider refuses the put with a service error, the upload
    returns false together with the provider's error code, after one listing
    and one put call, and the bucket's objects are unchanged. *)
Theorem upload_reports_provider_error_code :
  forall (md5_hex : list byte -> string) (fs : FileSystem)
         (put_fault : string -> option PyExc) (self : TencentCosBucket)
         (w : Remote) (local_file_path remote_dir : string) (overwrite : bool)
         (content : list byte) (code : string),
    fs local_file_path = Some (RegularFile content) ->
    overwrite = true
    \/ Client.lookup (OsPath.name local_file_path) (objects w) = None ->
    put_fault (OsPath.join remote_dir (OsPath.name local_file_path))
    = Some (CosServiceError code) ->
    _upload_object md5_hex fs put_fault self local_file_path remote_dir overwrite w
    = (Ok (false, code),
       {| objects := objects w;
          calls := (calls w
                    ++ [ListObjects (full_name self) "";
                        PutObject (full_name self)
                          (OsPath.join remote_dir (OsPath.name local_file_path))])%list |}).
Proof.
  intros md5_hex fs put_fault self w lp dir ow content code Hfile Hgo Hput.
  rewrite (upload_after_listing md5_hex fs put_fault self w lp dir ow _ Hfile).
  cbv zeta.
  replace ((match Client.lookup (OsPath.name lp) (objects w) with
            | Some _ => true | None => false end) && negb ow) with false
    by (destruct Hgo as [-> | ->]; [now rewrite andb_false_r|reflexivity]).
  rewrite Hput. unfold logged. cbn [objects calls].
  now rewrite <- app_assoc.
Qed.

Lemma upload_reports_provider_error_code_denied :
  _upload_object toy_digest local_fs put_denied example_handle
    "local/x.csv" "reports" true reports_bucket
  = (Ok (false, "AccessDenied"),
     {| objects := objects reports_bucket;
        calls := (calls reports_bucket
                  ++ [ListObjects (full_name example_handle) "";
                      PutObject (full_name example_handle)
                        (OsPath.join "reports" (OsPath.name "local/x.csv"))])%list |}).
Proof.
  apply (upload_reports_provider_error_code toy_digest local_fs put_denied
           example_handle reports_bucket "local/x.csv" "reports" true
           [x61; x2c; x62]%byte "AccessDenied").
  - reflexivity.
  - left. reflexivity.
  - reflexivity.
Defined.

(** X17: a local path that exists but is a directory is not uploaded: unless
    the upload is skipped for a namesake, it returns false after the listing
    call, without any put. *)
Theorem upload_of_a_directory_fails_without_put :
  forall (md5_hex : list byte -> string) (fs : FileSystem)
         (put_fault : string -> option PyExc) (self : TencentCosBucket)
         (w : Remote) (local_file_path remote_dir : string) (overwrite : bool),
    fs local_file_path = Some Directory ->
    overwrite = true
    \/ Client.lookup (OsPath.name local_file_path) (objects w) = None ->
    upload_file md5_hex fs put_fault self local_file_path remote_dir overwrite w
    = (Ok false, logged (ListObjects (full_name self) "") w).
Proof.
  intros md5_hex fs put_fault self w lp dir ow Hdir Hgo.
  unfold upload_file, bind at 1.
  rewrite (upload_after_listing md5_hex fs put_fault self w lp dir ow _ Hdir).
  cbv zeta.
  replace ((match Client.lookup (OsPath.name lp) (objects w) with
            | Some _ => true | None => false end) && negb ow) with false
    by (destruct Hgo as [-> | ->]; [now rewrite andb_false_r|reflexivity]).
  reflexivity.
Qed.

Lemma upload_of_a_directory_fails_without_put_local :
  upload_file toy_digest local_fs no_fault example_handle "local" "reports" true
    reports_bucket
  = (Ok false, logged (ListObjects (full_name example_handle) "") reports_bucket).
Proof.
  apply upload_of_a_directory_fails_without_put.
  - reflexivity.
  - left. reflexivity.
Defined.

(** X18: a successful upload stores exactly the local bytes, with their
    digest as the only metadata, at the key [join(remote_dir, leaf)], and
    touches no other key: it makes one listing and one put call, and every
    other key holds what it held. *)
Theorem upload_stores_the_file_and_nothing_else :
  forall (md5_hex : list byte -> string) (fs : FileSystem)
         (put_fault : string -> option PyExc) (self : TencentCosBucket)
         (w : Remote) (local_file_path remote_dir : string) (overwrite : bool)
         (content : list byte),
    fs local_file_path = Some (RegularFile content) ->
    put_fault (OsPath.join remote_dir (OsPath.name local_file_path)) = None ->
    overwrite = true
    \/ Client.lookup (OsPath.name local_file_path) (objects w) = None ->
    let Key := OsPath.join remote_dir (OsPath.name local_file_path) in
    exists w',
      upload_file md5_hex fs put_fault self local_file_path remote_dir overwrite w
      = (Ok true, w')
      /\ Client.lookup Key (objects w')
         = Some {| Body := content;
                   Metadata := [("x-cos-meta-md5", md5_hex content)] |}
      /\ (forall k, k <> Key ->
                    Client.lookup k (objects w') = Client.lookup k (objects w))
      /\ calls w' = (calls w ++ [ListObjects (full_name self) "";
                                 PutObject (full_name self) Key])%list.
Proof.
  intros md5_hex fs put_fault self w lp dir ow content Hfile Hput Hgo Key.
  unfold upload_file, bind at 1.
  rewrite (upload_after_listing md5_hex fs put_fault self w lp dir ow _ Hfile).
  cbv zeta.
  replace ((match Client.lookup (OsPath.name lp) (objects w) with
            | Some _ => true | None => false end) && negb ow) with false
    by (destruct Hgo as [-> | ->]; [now rewrite andb_false_r|reflexivity]).
  subst Key. rewrite Hput.
  eexists. split; [reflexivity|]. cbn [objects calls logged].
  split; [apply lookup_store_same|].
  split; [intros k Hk; now apply lookup_store_other|].
  now rewrite <- app_assoc.
Qed.

Lemma upload_stores_the_file_and_nothing_else_reports :
  let Key := OsPath.join "reports" (OsPath.name "local/x.csv") in
  exists w',
    upload_file toy_digest local_fs no_fault example_handle "local/x.csv" "reports"
      false (remote_of [("reports/", empty_object); ("reports/x.csv", csv_object)])
    = (Ok true, w')
    /\ Client.lookup Key (objects w')
       = Some {| Body := [x61; x2c; x62]%byte;
                 Metadata := [("x-cos-meta-md5", toy_digest [x61; x2c; x62]%byte)] |}
    /\ (forall k, k <> Key ->
                  Client.lookup k (objects w')
                  = Client.lookup k
                      (objects (remote_of [("reports/", empty_object);
                                           ("reports/x.csv", csv_object)])))
    /\ calls w' = (calls (remote_of [("reports/", empty_object);
                                     ("reports/x.csv", csv_object)])
                   ++ [ListObjects (full_name example_handle) "";
                       PutObject (full_name example_handle) Key])%list.
Proof.
  apply (upload_stores_the_file_and_nothing_else toy_digest local_fs no_fault
           example_handle
           (remote_of [("reports/", empty_object); ("reports/x.csv", csv_object)])
           "local/x.csv" "reports" false [x61; x2c; x62]%byte).
  - reflexivity.
  - reflexivity.
  - right. reflexivity.
Defined.

(** ** More on deleting *)

Lemma mem_cons (x k : string) (ks : list string) :
  PyStr.mem x (k :: ks) = String.eqb x k || PyStr.mem x ks.
Proof. reflexivity. Qed.

(** A run of deletes leaves the objects whose key was not among them. *)
Lemma fold_remove (ks : list string) :
  forall objs : list (string * CosObject),
    fold_left (fun objs key => Client.remove key objs) ks objs
    = filter (fun kv => negb (PyStr.mem (fst kv) ks)) objs.
Proof.
  induction ks as [|k ks IH]; intros objs; cbn [fold_left].
  - induction objs as [|kv objs IHo]; [reflexivity|].
    cbn [filter PyStr.mem existsb negb]. f_equal. exact IHo.
  - rewrite IH. unfold Client.remove.
    induction objs as [|kv objs IHo]; [reflexivity|].
    cbn [filter]. rewrite mem_cons.
    destruct (String.eqb (fst kv) k); cbn [negb orb].
    + exact IHo.
    + cbn [filter]. destruct (PyStr.mem (fst kv) ks); cbn [negb];
        [exact IHo|f_equal; exact IHo].
Qed.

Lemma remove_all_keys (objs : list (string * CosObject)) :
  fold_left (fun objs key => Client.remove key objs) (map fst objs) objs = [].
Proof.
  rewrite fold_remove.
  assert (H : forall ks, (forall kv, In kv objs -> In (fst kv) ks) ->
                         filter (fun kv => negb (PyStr.mem (fst kv) ks)) objs = []).
  { intros ks. induction objs as [|kv objs IH]; intros Hall; [reflexivity|].
    cbn [filter].
    replace (PyStr.mem (fst kv) ks) with true
      by (symmetry; apply mem_In, Hall; now left).
    cbn [negb]. apply IH. intros kv' Hin. apply Hall. now right. }
  apply H. intros kv Hin. now apply in_map.
Qed.

(** X19: [delete_all_files] empties the bucket: it lists the keys once,
    issues one delete per key, in listing order, and leaves no object. *)
Theorem delete_all_files_empties_the_bucket :
  forall (self : TencentCosBucket) (w : Remote),
    delete_all_files self w
    = (Ok tt,
       {| objects := [];
          calls := (calls w ++ ListObjects (full_name self) ""
                    :: map (DeleteObject (full_name self)) (map fst (objects w)))%list |}).
Proof.
  intros self w. unfold delete_all_files, bind.
  rewrite list_objects_root, for_each_delete.
  cbn [objects calls logged]. rewrite remove_all_keys, <- app_assoc. reflexivity.
Qed.

(** X20: on the root of the bucket [delete_dir_files] does what its name
    says: [delete_dir_files("")] deletes every object, one call per key, so
    that the listing of the root is empty afterwards. *)
Theorem delete_dir_files_root_empties_the_bucket :
  forall (self : TencentCosBucket) (w : Remote),
    exists w',
      delete_dir_files self "" w = (Ok tt, w')
      /\ objects w' = []
      /\ calls w' = (calls w ++ ListObjects (full_name self) ""
                     :: map (DeleteObject (full_name self)) (map fst (objects w)))%list
      /\ fst (list_dir_files self "" w') = Ok [].
Proof.
  intros self w.
  assert (Hlist : forall w0, list_dir_files self "" w0 = _list_objects self "" w0)
    by reflexivity.
  unfold delete_dir_files, bind.
  rewrite Hlist, list_objects_root, for_each_delete.
  cbn [objects calls logged]. rewrite remove_all_keys.
  eexists. split; [reflexivity|]. cbn [objects calls].
  split; [reflexivity|]. split; [now rewrite <- app_assoc|].
  rewrite Hlist, list_objects_root. reflexivity.
Qed.

(** X21: [delete_dir_files] on a directory without marker raises
    [CosBucketDirNotFoundError] after the listing call of the check, and
    issues no delete. *)
Theorem delete_dir_files_unknown_directory_raises :
  forall (self : TencentCosBucket) (w : Remote) (d : string),
    plain_dir d ->
    Client.lookup (d ++ "/") (objects w) = None ->
    delete_dir_files self d w
    = (Raise (CosBucketDirNotFoundError ("Bucket dir " ++ (d ++ "/") ++ " not found.")),
       logged (ListObjects (full_name self) "") w).
Proof.
  intros self w d Hplain Hnone. unfold delete_dir_files, bind.
  rewrite (list_dir_files_unknown self w d Hplain Hnone). reflexivity.
Qed.

Lemma delete_dir_files_unknown_directory_raises_photos :
  delete_dir_files example_handle "photos" reports_bucket
  = (Raise (CosBucketDirNotFoundError
              ("Bucket dir " ++ ("photos" ++ "/") ++ " not found.")),
     logged (ListObjects (full_name example_handle) "") reports_bucket).
Proof.
  apply delete_dir_files_unknown_directory_raises.
  - repeat split. discriminate.
  - reflexivity.
Defined.

(** X22: deleting a path that is not in the bucket is a success: one
    existence call, the bare flag [True], nothing changed. *)
Theorem delete_file_of_missing_path_succeeds :
  forall (self : TencentCosBucket) (w : Remote) (remote_file_path : string),
    Client.lookup remote_file_path (objects w) = None ->
    delete_file self remote_file_path w
    = (Ok (Flag true), logged (ObjectExists (full_name self) remote_file_path) w).
Proof.
  intros self w p Hnone.
  unfold delete_file, is_object_exists, Client.object_exists, Client.record, bind.
  cbn [objects]. rewrite Hnone. reflexivity.
Qed.

Lemma delete_file_of_missing_path_succeeds_reports :
  delete_file example_handle "reports/y.csv" reports_bucket
  = (Ok (Flag true),
     logged (ObjectExists (full_name example_handle) "reports/y.csv") reports_bucket).
Proof.
  apply delete_file_of_missing_path_succeeds. reflexivity.
Defined.

Lemma delete_file_existing (self : TencentCosBucket) (w : Remote) (p : string) :
  Client.lookup p (objects w) <> None ->
  delete_file self p w
  = (r <- _delete_file self (fst (_parse_object_path_name p))
            (snd (_parse_object_path_name p)) ;;
     ret (FlagMsg (fst r) (snd r)))
      (logged (ObjectExists (full_name self) p) w).
Proof.
  intros Hsome.
  unfold delete_file, is_object_exists, Client.object_exists, Client.record.
  unfold bind at 1. unfold bind at 1. cbn [objects].
  destruct (Client.lookup p (objects w)); [|now elim Hsome].
  cbn [negb]. destruct (_parse_object_path_name p). reflexivity.
Qed.

(** X23: deleting an existing object at the root of the bucket (a key without
    [/]) removes that object and only that one, after an existence call and a
    listing of the bucket, and returns [(True, '')]. *)
Theorem delete_file_removes_root_object :
  forall (self : TencentCosBucket) (w : Remote) (Key : string),
    PyStr.contains_char slash Key = false ->
    Client.lookup Key (objects w) <> None ->
    exists w',
      delete_file self Key w = (Ok (FlagMsg true ""), w')
      /\ Client.lookup Key (objects w') = None
      /\ (forall k, k <> Key ->
                    Client.lookup k (objects w') = Client.lookup k (objects w))
      /\ calls w' = (calls w ++ [ObjectExists (full_name self) Key;
                                 ListObjects (full_name self) "";
                                 DeleteObject (full_name self) Key])%list.
Proof.
  intros self w Key Hk Hsome.
  rewrite (delete_file_existing self w Key Hsome).
  unfold _parse_object_path_name. rewrite Hk. cbn [negb fst snd].
  unfold _delete_file. cbn [PyStr.endswith String.length Nat.leb Nat.sub PyStr.drop
                            String.eqb andb negb].
  assert (Hlist : forall w0, list_dir_files self "" w0 = _list_objects self "" w0)
    by reflexivity.
  unfold bind. rewrite Hlist, list_objects_root.
  cbn [objects logged]. rewrite mem_keys_lookup.
  destruct (Client.lookup Key (objects w)); [|now elim Hsome].
  cbn [negb append].
  unfold _delete_object, Client.delete_object, Client.record, bind, ret.
  eexists. split; [reflexivity|]. cbn [objects calls fst snd].
  split; [apply lookup_remove_same|].
  split; [intros k Hne; now apply lookup_remove_other|].
  cbn [calls logged]. now rewrite <- !app_assoc.
Qed.

Lemma delete_file_removes_root_object_reports :
  exists w',
    delete_file example_handle "x.csv" reports_bucket = (Ok (FlagMsg true ""), w')
    /\ Client.lookup "x.csv" (objects w') = None
    /\ (forall k, k <> "x.csv" ->
                  Client.lookup k (objects w') = Client.lookup k (objects reports_bucket))
    /\ calls w' = (calls reports_bucket
                   ++ [ObjectExists (full_name example_handle) "x.csv";
                       ListObjects (full_name example_handle) "";
                       DeleteObject (full_name example_handle) "x.csv"])%list.
Proof.
  apply delete_file_removes_root_object.
  - reflexivity.
  - discriminate.
Defined.

(** [_delete_file] on a parsed path [d/l]: the directory gets its [/] back. *)
Lemma delete_file_nested (self : TencentCosBucket) (w : Remote) (d l : string) :
  plain_dir d ->
  PyStr.contains_char slash l = false ->
  Client.lookup (d ++ "/" ++ l) (objects w) <> None ->
  delete_file self (d ++ "/" ++ l) w
  = (r <- (listed <- list_dir_files self d ;;
           if negb (PyStr.mem l listed)
           then ret (false, l ++ " not found in " ++ (d ++ "/"))
           else _delete_object self ((d ++ "/") ++ l) ;;; ret (true, "")) ;;
     ret (FlagMsg (fst r) (snd r)))
      (logged (ObjectExists (full_name self) (d ++ "/" ++ l)) w).
Proof.
  intros Hplain Hl Hsome.
  rewrite (delete_file_existing self w _ Hsome).
  destruct (parse_slash_join d l Hl) as [-> ->].
  unfold _delete_file.
  destruct Hplain as (Hd & Hs & He).
  rewrite He. apply String.eqb_neq in Hd as Hd'. rewrite Hd'. cbn [negb andb].
  rewrite (list_dir_files_trailing_slash self d (conj Hd (conj Hs He))).
  reflexivity.
Qed.

(** X24: deleting an existing object [d/l] of a directory that has its
    marker removes that object and only that one, and returns [(True, '')],
    after an existence call, the two listings of [list_dir_files] and one
    delete of the full key. *)
Theorem delete_file_removes_nested_object :
  forall (self : TencentCosBucket) (w : Remote) (d l : string),
    plain_dir d ->
    PyStr.contains_char slash l = false ->
    Client.lookup (d ++ "/" ++ l) (objects w) <> None ->
    Client.lookup (d ++ "/") (objects w) <> None ->
    exists w',
      delete_file self (d ++ "/" ++ l) w = (Ok (FlagMsg true ""), w')
      /\ Client.lookup (d ++ "/" ++ l) (objects w') = None
      /\ (forall k, k <> d ++ "/" ++ l ->
                    Client.lookup k (objects w') = Client.lookup k (objects w))
      /\ calls w' = (calls w ++ [ObjectExists (full_name self) (d ++ "/" ++ l);
                                 ListObjects (full_name self) "";
                                 ListObjects (full_name self) (d ++ "/");
                                 DeleteObject (full_name self) (d ++ "/" ++ l)])%list.
Proof.
  intros self w d l Hplain Hl Hsome Hmarker.
  rewrite (delete_file_nested self w d l Hplain Hl Hsome).
  unfold bind at 1. unfold bind at 1.
  rewrite (list_dir_files_known self
             (logged (ObjectExists (full_name self) (d ++ "/" ++ l)) w)
             d Hplain Hmarker).
  cbn [objects logged].
  replace (PyStr.mem l _) with true.
  - cbn [negb].
    unfold _delete_object, Client.delete_object, Client.record, bind, ret.
    rewrite str_app_assoc.
    eexists. split; [reflexivity|]. cbn [objects calls fst snd].
    split; [apply lookup_remove_same|].
    split; [intros k Hne; now apply lookup_remove_other|].
    cbn [calls logged]. now rewrite <- !app_assoc.
  - symmetry. apply mem_In, leaf_listed; [exact Hl|]. now apply lookup_In.
Qed.

Lemma delete_file_removes_nested_object_reports :
  exists w',
    delete_file example_handle ("reports" ++ "/" ++ "x.csv") reports_bucket
    = (Ok (FlagMsg true ""), w')
    /\ Client.lookup ("reports" ++ "/" ++ "x.csv") (objects w') = None
    /\ (forall k, k <> "reports" ++ "/" ++ "x.csv" ->
                  Client.lookup k (objects w') = Client.lookup k (objects reports_bucket))
    /\ calls w' = (calls reports_bucket
                   ++ [ObjectExists (full_name example_handle)
                         ("reports" ++ "/" ++ "x.csv");
                       ListObjects (full_name example_handle) "";
                       ListObjects (full_name example_handle) ("reports" ++ "/");
                       DeleteObject (full_name example_handle)
                         ("reports" ++ "/" ++ "x.csv")])%list.
Proof.
  apply delete_file_removes_nested_object.
  - repeat split. discriminate.
  - reflexivity.
  - discriminate.
  - discriminate.
Defined.

(** X25: [delete_file] does not always return a flag: for an existing object
    [d/l] whose directory has no marker object, the directory check of
    [list_dir_files] raises [CosBucketDirNotFoundError] through [delete_file],
    and the object is not deleted. *)
Theorem delete_file_raises_without_directory_marker :
  forall (self : TencentCosBucket) (w : Remote) (d l : string),
    plain_dir d ->
    PyStr.contains_char slash l = false ->
    Client.lookup (d ++ "/" ++ l) (objects w) <> None ->
    Client.lookup (d ++ "/") (objects w) = None ->
    delete_file self (d ++ "/" ++ l) w
    = (Raise (CosBucketDirNotFoundError ("Bucket dir " ++ (d ++ "/") ++ " not found.")),
       {| objects := objects w;
          calls := (calls w ++ [ObjectExists (full_name self) (d ++ "/" ++ l);
                                ListObjects (full_name self) ""])%list |}).
Proof.
  intros self w d l Hplain Hl Hsome Hnone.
  rewrite (delete_file_nested self w d l Hplain Hl Hsome).
  unfold bind at 1. unfold bind at 1.
  rewrite (list_dir_files_unknown self
             (logged (ObjectExists (full_name self) (d ++ "/" ++ l)) w)
             d Hplain Hnone).
  unfold logged. cbn [objects calls]. now rewrite <- app_assoc.
Qed.

Lemma delete_file_raises_without_directory_marker_other :
  delete_file example_handle ("other" ++ "/" ++ "x.csv")
    (remote_of [("other/x.csv", csv_object)])
  = (Raise (CosBucketDirNotFoundError ("Bucket dir " ++ ("other" ++ "/") ++ " not found.")),
     {| objects := objects (remote_of [("other/x.csv", csv_object)]);
        calls := (calls (remote_of [("other/x.csv", csv_object)])
                  ++ [ObjectExists (full_name example_handle)
                        ("other" ++ "/" ++ "x.csv");
                      ListObjects (full_name example_handle) ""])%list |}).
Proof.
  apply delete_file_raises_without_directory_marker.
  - repeat split. discriminate.
  - reflexivity.
  - discriminate.
  - reflexivity.
Defined.

(** ** More on checksums and URLs *)

(** X26: for an existing key without [/], [get_file_url] is right: it
    returns the base URL followed by the percent-encoded key, after a single
    existence call. *)
Theorem object_url_of_root_key :
  forall (self : TencentCosBucket) (w : Remote) (Key : string),
    PyStr.contains_char slash Key = false ->
    Client.lookup Key (objects w) <> None ->
    get_file_url self Key w
    = (Ok (base_url self ++ Urllib.quote Key),
       logged (ObjectExists (full_name self) Key) w).
Proof.
  intros self w Key Hk Hsome.
  unfold get_file_url, is_object_exists, Client.object_exists, Client.record,
    bind, ret.
  cbn [objects]. destruct (Client.lookup Key (objects w)); [|now elim Hsome].
  cbn [negb]. unfold _parse_object_path_name. rewrite Hk. reflexivity.
Qed.

Lemma object_url_of_root_key_reports :
  get_file_url example_handle "x.csv" reports_bucket
  = (Ok (base_url example_handle ++ Urllib.quote "x.csv"),
     logged (ObjectExists (full_name example_handle) "x.csv") reports_bucket).
Proof.
  apply object_url_of_root_key.
  - reflexivity.
  - discriminate.
Defined.

(** X27: what the two lookups answer.  For a key that is not in the bucket,
    [get_file_url] and [get_file_md5] return the empty string after one
    existence call, without raising.  For a key that is, [get_file_md5] makes
    a second call and returns the object's [x-cos-meta-md5] metadata, or
    [None] when the object carries none. *)
Theorem lookups_of_missing_and_present_keys :
  forall (self : TencentCosBucket) (w : Remote) (Key : string),
    match Client.lookup Key (objects w) with
    | None =>
        get_file_url self Key w
        = (Ok "", logged (ObjectExists (full_name self) Key) w)
        /\ get_file_md5 self Key w
           = (Ok (Some ""), logged (ObjectExists (full_name self) Key) w)
    | Some o =>
        get_file_md5 self Key w
        = (Ok (dict_get "x-cos-meta-md5" (Metadata o)),
           logged (GetObject (full_name self) Key)
             (logged (ObjectExists (full_name self) Key) w))
    end.
Proof.
  intros self w Key.
  unfold get_file_url, get_file_md5, _get_object_md5hash, _get_object_info,
    is_object_exists, Client.object_exists, Client.get_object, Client.record,
    bind, ret.
  cbn [objects].
  destruct (Client.lookup Key (objects w)) eqn:E; cbn [negb objects].
  - rewrite E. reflexivity.
  - split; reflexivity.
Qed.

(** ** Downloading *)

Lemma download_file_spec (write_fault : string -> option PyExc) (fs : FileSystem)
    (self : TencentCosBucket) (w : Remote) (remote_file_path local_dir : string) :
  download_file write_fault fs self remote_file_path local_dir w
  = let dest := OsPath.join local_dir (snd (_parse_object_path_name remote_file_path)) in
    let w1 := logged (GetObject (full_name self) remote_file_path) w in
    match Client.lookup remote_file_path (objects w) with
    | None => (Ok (false, fs), w1)
    | Some o =>
        match write_fault dest with
        | Some _ => (Ok (false, fs), w1)
        | None => (Ok (true, fs_write fs dest (Body o)), w1)
        end
    end.
Proof.
  unfold download_file, _download_object.
  destruct (_parse_object_path_name remote_file_path) as [file_dir file_name].
  cbn [snd]. cbv zeta.
  unfold try_except, bind, Transfer.download_file, Client.record, bind, ret.
  cbn [objects].
  destruct (Client.lookup remote_file_path (objects w)); [|reflexivity].
  destruct (write_fault (OsPath.join local_dir file_name)); reflexivity.
Qed.

(** X28: a download never raises and never changes the bucket: it makes one
    call and returns a flag; when the flag is false, as it is for a key that
    is not in the bucket, the local file system is as it was; when it is true
    the only local path written is [join(local_dir, leaf)], the leaf being
    what follows the last [/] of the key. *)
Theorem download_never_raises :
  forall (write_fault : string -> option PyExc) (fs : FileSystem)
         (self : TencentCosBucket) (w : Remote)
         (remote_file_path local_dir : string),
    exists (ok : bool) (fs' : FileSystem),
      download_file write_fault fs self remote_file_path local_dir w
      = (Ok (ok, fs'), logged (GetObject (full_name self) remote_file_path) w)
      /\ (ok = false -> fs' = fs)
      /\ (Client.lookup remote_file_path (objects w) = None -> ok = false)
      /\ (forall q,
            q <> OsPath.join local_dir (snd (_parse_object_path_name remote_file_path)) ->
            fs' q = fs q).
Proof.
  intros write_fault fs self w p dir.
  rewrite download_file_spec. cbv zeta.
  destruct (Client.lookup p (objects w)) as [o|].
  - destruct (write_fault (OsPath.join dir (snd (_parse_object_path_name p)))).
    + exists false, fs. repeat split; reflexivity.
    + exists true. eexists. split; [reflexivity|].
      split; [discriminate|]. split; [discriminate|].
      intros q Hq. unfold fs_write. apply String.eqb_neq in Hq. now rewrite Hq.
  - exists false, fs. repeat split; reflexivity.
Qed.

(** X29: an upload followed by a download of the key it wrote brings the
    bytes back: when the provider accepts the put and the destination can be
    written, downloading [join(remote_dir, leaf)] into [local_dir] succeeds and
    leaves the uploaded bytes at [join(local_dir, leaf)], every other local
    path being as it was. *)
Theorem upload_then_download_round_trip :
  forall (md5_hex : list byte -> string) (fs : FileSystem)
         (put_fault write_fault : string -> option PyExc) (fs_dest : FileSystem)
         (self : TencentCosBucket) (w : Remote)
         (local_file_path remote_dir local_dir : string) (overwrite : bool)
         (content : list byte),
    fs local_file_path = Some (RegularFile content) ->
    put_fault (OsPath.join remote_dir (OsPath.name local_file_path)) = None ->
    overwrite = true
    \/ Client.lookup (OsPath.name local_file_path) (objects w) = None ->
    write_fault (OsPath.join local_dir (OsPath.name local_file_path)) = None ->
    exists (w1 w2 : Remote) (fs' : FileSystem),
      _upload_object md5_hex fs put_fault self local_file_path remote_dir overwrite w
      = (Ok (true, "SUCCESS"), w1)
      /\ download_file write_fault fs_dest self
           (OsPath.join remote_dir (OsPath.name local_file_path)) local_dir w1
         = (Ok (true, fs'), w2)
      /\ fs' (OsPath.join local_dir (OsPath.name local_file_path))
         = Some (RegularFile content)
      /\ (forall q, q <> OsPath.join local_dir (OsPath.name local_file_path) ->
                    fs' q = fs_dest q).
Proof.
  intros md5_hex fs put_fault write_fault fs_dest self w lp rdir ldir ow content
    Hfile Hput Hgo Hwrite.
  rewrite (upload_after_listing md5_hex fs put_fault self w lp rdir ow _ Hfile).
  cbv zeta.
  replace ((match Client.lookup (OsPath.name lp) (objects w) with
            | Some _ => true | None => false end) && negb ow) with false
    by (destruct Hgo as [-> | ->]; [now rewrite andb_false_r|reflexivity]).
  rewrite Hput.
  do 3 eexists. split; [reflexivity|].
  rewrite download_file_spec. cbv zeta. cbn [objects].
  rewrite lookup_store_same.
  rewrite (parse_of_join_leaf rdir (OsPath.name lp) (name_no_slash lp)).
  rewrite Hwrite. split; [reflexivity|]. cbn [Body]. unfold fs_write.
  split.
  - now rewrite String.eqb_refl.
  - intros q Hq. apply String.eqb_neq in Hq. now rewrite Hq.
Qed.

Lemma upload_then_download_round_trip_reports :
  exists (w1 w2 : Remote) (fs' : FileSystem),
    _upload_object toy_digest local_fs no_fault example_handle
      "local/x.csv" "reports" true reports_bucket
    = (Ok (true, "SUCCESS"), w1)
    /\ download_file no_fault (fun _ => None) example_handle
         (OsPath.join "reports" (OsPath.name "local/x.csv")) "backup" w1
       = (Ok (true, fs'), w2)
    /\ fs' (OsPath.join "backup" (OsPath.name "local/x.csv"))
       = Some (RegularFile [x61; x2c; x62]%byte)
    /\ (forall q, q <> OsPath.join "backup" (OsPath.name "local/x.csv") ->
                  fs' q = (fun _ => None) q).
Proof.
  apply (upload_then_download_round_trip toy_digest local_fs no_fault no_fault
           (fun _ => None) example_handle reports_bucket "local/x.csv" "reports"
           "backup" true [x61; x2c; x62]%byte).
  - reflexivity.
  - reflexivity.
  - left. reflexivity.
  - reflexivity.
Defined.

(** X30: [get_local_file_md5] digests a regular file whole, whatever its
    length: reading it in chunks of 128 bytes feeds the digest the same bytes
    in the same order.  For a path that is a directory or does not exist it
    raises [FileNotFoundError] naming the path. *)
Theorem local_md5_of_files_and_other_paths :
  forall (md5_hex : list byte -> string) (fs : FileSystem) (local_file_path : string),
    get_local_file_md5 md5_hex fs local_file_path
    = match fs local_file_path with
      | Some (RegularFile content) => Ok (md5_hex content)
      | _ => Raise (FileNotFoundError ("cannot found file: " ++ local_file_path))
      end.
Proof.
  intros md5_hex fs p.
  unfold get_local_file_md5, Os.isfile, Os.open_rb, md5_hexdigest.
  destruct (fs p) as [[content|]|]; cbn [negb]; try reflexivity.
  f_equal. f_equal.
  rewrite md5_read_loop_feeds_all by lia. reflexivity.
Qed.
